(** * Complexity scoring and routing of the TEST-WORKFLOW orchestrator

    Shallow embedding of [src/TEST-WORKFLOW/ORCHESTRATOR/orchestrator.py]
    (class [WedSyncOrchestrator]): the pattern library, the complexity scorer
    [calculate_complexity], the router [route_issue] with [get_pattern_name],
    and the report ingestion functions [ingest_sonarqube],
    [ingest_coderabbit] and [ingest_typescript] together with the sequence
    of ingestion calls made by [main].

    Strings are Rocq [string]s holding ASCII text; Python's [str.lower],
    [str.upper], [in], [str.replace], [str.split], [str.strip] and [int] are
    written out below on them (their Unicode tables beyond ASCII are not
    modelled).

    The second part embeds [src/TEST-WORKFLOW/INGESTION/parse-sonarqube.py]
    (module [ParseSonar]) and the rest of the orchestrator's pipeline:
    [save_job], [find_similar_fixes] and the dispatch of [INCOMING/] files
    in [main]. *)

From Stdlib Require Import ZArith String List Bool Ascii Lia.
From Stdlib Require Import Numbers.DecimalString Sorting.Sorted.
Import ListNotations.
Open Scope string_scope.
Open Scope Z_scope.

(** ** Python string primitives *)

Module PyStr.

(** [c.lower()] / [c.upper()] on one ASCII character. *)
Definition lower_char (c : ascii) : ascii :=
  let n := nat_of_ascii c in
  if (Nat.leb 65 n && Nat.leb n 90)%bool then ascii_of_nat (n + 32) else c.

Definition upper_char (c : ascii) : ascii :=
  let n := nat_of_ascii c in
  if (Nat.leb 97 n && Nat.leb n 122)%bool then ascii_of_nat (n - 32) else c.

(** [s.lower()] *)
Fixpoint lower (s : string) : string :=
  match s with
  | EmptyString => EmptyString
  | String c r => String (lower_char c) (lower r)
  end.

(** [s.upper()] *)
Fixpoint upper (s : string) : string :=
  match s with
  | EmptyString => EmptyString
  | String c r => String (upper_char c) (upper r)
  end.

(** [s.startswith(p)] *)
Fixpoint starts_with (p s : string) : bool :=
  match p, s with
  | EmptyString, _ => true
  | String c p', String d s' => Ascii.eqb c d && starts_with p' s'
  | String _ _, EmptyString => false
  end.

(** [sub in s] for strings. *)
Fixpoint contains (sub s : string) : bool :=
  starts_with sub s ||
  match s with
  | EmptyString => false
  | String _ r => contains sub r
  end.

(** [s.replace(old, new)]: left to right, non-overlapping occurrences.
    [old] is non-empty at every call site; [fuel] is [length s]. *)
Fixpoint replace_fuel (fuel : nat) (old new s : string) : string :=
  match fuel with
  | O => s
  | S f =>
    match s with
    | EmptyString => EmptyString
    | String c r =>
      if starts_with old s
      then new ++ replace_fuel f old new (substring (String.length old) (String.length s) s)
      else String c (replace_fuel f old new r)
    end
  end.

Definition replace (old new s : string) : string :=
  replace_fuel (String.length s) old new s.

(** [s.split(sep)] with a non-empty [sep]: [cur] accumulates the current
    piece in reverse. *)
Fixpoint split_fuel (fuel : nat) (sep s : string) (cur : list ascii) : list string :=
  match fuel with
  | O => [string_of_list_ascii (rev cur) ++ s]
  | S f =>
    match s with
    | EmptyString => [string_of_list_ascii (rev cur)]
    | String c r =>
      if starts_with sep s
      then string_of_list_ascii (rev cur)
             :: split_fuel f sep (substring (String.length sep) (String.length s) s) []
      else split_fuel f sep r (c :: cur)
    end
  end.

Definition split (sep s : string) : list string :=
  split_fuel (String.length s) sep s [].

(** [sep.join(xs)] *)
Fixpoint join (sep : string) (xs : list string) : string :=
  match xs with
  | [] => EmptyString
  | [x] => x
  | x :: xs' => x ++ sep ++ join sep xs'
  end.

(** Whitespace of [str.strip()] and [str.split()] in the ASCII range:
    tab to carriage return, the separators 0x1c-0x1f, and space. *)
Definition is_space (c : ascii) : bool :=
  let n := nat_of_ascii c in
  (Nat.eqb n 32 || (Nat.leb 9 n && Nat.leb n 13) || (Nat.leb 28 n && Nat.leb n 31))%bool.

Fixpoint lstrip_list (l : list ascii) : list ascii :=
  match l with
  | [] => []
  | c :: r => if is_space c then lstrip_list r else l
  end.

(** [s.strip()] *)
Definition strip (s : string) : string :=
  string_of_list_ascii
    (rev (lstrip_list (rev (lstrip_list (list_ascii_of_string s))))).

(** [int(s)] for a decimal string: optional surrounding whitespace, an
    optional sign, and digits in which single underscores may separate two
    digits; [None] is the [ValueError]. *)
Definition digit_val (c : ascii) : option Z :=
  let n := nat_of_ascii c in
  if (Nat.leb 48 n && Nat.leb n 57)%bool then Some (Z.of_nat (n - 48)) else None.

(** [after_digit] tells whether the previous character was a digit: an
    underscore must follow a digit, and the string must end with one. *)
Fixpoint digits_val (acc : Z) (after_digit : bool) (l : list ascii) : option Z :=
  match l with
  | [] => if after_digit then Some acc else None
  | c :: r =>
    match digit_val c with
    | Some d => digits_val (10 * acc + d) true r
    | None =>
      if (after_digit && Ascii.eqb c "_")%bool then digits_val acc false r else None
    end
  end.

Definition int_of_string (s : string) : option Z :=
  match list_ascii_of_string (strip s) with
  | [] => None
  | c :: r =>
    if Ascii.eqb c "-" then option_map Z.opp (digits_val 0 false r)
    else if Ascii.eqb c "+" then digits_val 0 false r
    else digits_val 0 false (c :: r)
  end.

(** [str(z)] for an integer. *)
Definition of_Z (z : Z) : string :=
  NilEmpty.string_of_int (Z.to_int z).

(** [s.split()] without a separator: the maximal runs of non-whitespace
    characters, in order; [cur] is the current run in reverse. *)
Fixpoint ws_tokens (l : list ascii) (cur : list ascii) : list string :=
  match l with
  | [] => match cur with [] => [] | _ => [string_of_list_ascii (rev cur)] end
  | c :: r =>
    if is_space c then
      match cur with
      | [] => ws_tokens r []
      | _ => string_of_list_ascii (rev cur) :: ws_tokens r []
      end
    else ws_tokens r (c :: cur)
  end.

Definition split_ws (s : string) : list string :=
  ws_tokens (list_ascii_of_string s) [].

(** [s[:n]] *)
Definition take (n : nat) (s : string) : string := substring 0 n s.

(** [f"{n:05d}"] for [n >= 0]. *)
Definition pad5 (n : Z) : string :=
  let d := of_Z n in
  string_of_list_ascii (repeat "0"%char (5 - String.length d)) ++ d.

Fixpoint take_while_not (c : ascii) (l : list ascii) : list ascii :=
  match l with
  | [] => []
  | d :: r => if Ascii.eqb c d then [] else d :: take_while_not c r
  end.

Fixpoint drop_while_not (c : ascii) (l : list ascii) : list ascii :=
  match l with
  | [] => []
  | d :: r => if Ascii.eqb c d then l else drop_while_not c r
  end.

Fixpoint drop_while_is (c : ascii) (l : list ascii) : list ascii :=
  match l with
  | [] => []
  | d :: r => if Ascii.eqb c d then drop_while_is c r else l
  end.

(** [os.path.basename(p)]: what follows the last ['/']. *)
Definition basename (p : string) : string :=
  string_of_list_ascii (rev (take_while_not "/" (rev (list_ascii_of_string p)))).

(** [os.path.dirname(p)]: what precedes the last ['/'], with its trailing
    slashes removed unless it consists of slashes only. *)
Definition dirname (p : string) : string :=
  let head_rev := drop_while_not "/" (rev (list_ascii_of_string p)) in
  match drop_while_is "/" head_rev with
  | [] => string_of_list_ascii (rev head_rev)
  | stripped => string_of_list_ascii (rev stripped)
  end.

End PyStr.

(** ** Data model: [Issue], [Job] and the pattern library *)

(** [@dataclass class Issue], fields typed as annotated: the issues the
    scorer and the router are modelled on.  The ingestion functions build
    [Issue] objects whose fields hold whatever the report gives; they are
    [PyIssue] below, and [typed_issue] reads one back as an [Issue] when
    its fields have the annotated types.  [raw_data] is left out: scoring
    and routing never read it (only [check_already_resolved] does, and its
    result is an input of [route_issue] below). *)
Record Issue := mkIssue {
  issue_id : string;
  source : string;
  severity : string;
  rule_id : string;
  file_path : string;
  line : Z;
  message : string;
  category : string
}.

(** [@dataclass class Job] *)
Record Job := mkJob {
  job_id : string;
  job_issue : Issue;
  job_type : string;
  complexity_score : Z;
  estimated_minutes : Z;
  pattern : option string;
  requires_agents : list string;
  verification_level : string;
  similar_fixes : list string;
  created_at : string
}.

(** One entry of the pattern library ([pattern-library.json]).  Only
    ["complexity"] is read by the scorer ([.get('complexity', score)]), so it
    is optional; [success_rate] is a float and is not modelled. *)
Record PatternEntry := mkEntry {
  entry_name : string;
  entry_complexity : option Z;
  entry_pattern : string;
  entry_verification : string;
  entry_minutes : Z
}.

(** The library, a Python dict keyed by pattern key; keys are distinct. *)
Definition Library := list (string * PatternEntry).

Fixpoint lib_lookup (k : string) (lib : Library) : option PatternEntry :=
  match lib with
  | [] => None
  | (k', e) :: rest => if String.eqb k k' then Some e else lib_lookup k rest
  end.

(** [load_patterns]: the default library written when no
    [pattern-library.json] exists. *)
Definition default_patterns : Library := [
  ("sonar-S3516", mkEntry "single-return-refactor" (Some 2)
     "Multiple early returns -> Single return point" "BASIC" 5);
  ("sonar-S128", mkEntry "switch-case-breaks" (Some 1)
     "Add break statements to switch cases" "BASIC" 3);
  ("typescript-missing-await", mkEntry "async-await-fix" (Some 3)
     "Add await to async function calls" "MEDIUM" 8)
].

(** ** [calculate_complexity] *)

(** [severity_scores.get(issue.severity, 3)] *)
Definition severity_score (sev : string) : Z :=
  if String.eqb sev "BLOCKER" then 8
  else if String.eqb sev "CRITICAL" then 6
  else if String.eqb sev "MAJOR" then 4
  else if String.eqb sev "MINOR" then 2
  else if String.eqb sev "INFO" then 1
  else 3.

(** [issue.rule_id.lower().replace('ts', 'typescript-')] *)
Definition pattern_key (i : Issue) : string :=
  PyStr.replace "ts" "typescript-" (PyStr.lower (rule_id i)).

Definition sensitive_paths : list string :=
  ["/api/"; "/auth/"; "/payment/"; "/marketplace/"].

(** [any(path in issue.file_path.lower() for path in sensitive_paths)] *)
Definition in_sensitive_path (i : Issue) : bool :=
  existsb (fun p => PyStr.contains p (PyStr.lower (file_path i))) sensitive_paths.

(** Score after the library step: [self.patterns[key].get('complexity', score)]. *)
Definition library_score (lib : Library) (i : Issue) : Z :=
  let score := severity_score (severity i) in
  match lib_lookup (pattern_key i) lib with
  | Some e => match entry_complexity e with Some c => c | None => score end
  | None => score
  end.

(** Score before the final [min(score, 10)]. *)
Definition raw_complexity (lib : Library) (i : Issue) : Z :=
  let score := library_score lib i in
  let score := if in_sensitive_path i then score + 3 else score in
  if String.eqb (category i) "security" then score + 4
  else if String.eqb (category i) "performance" then score + 2
  else score.

Definition calculate_complexity (lib : Library) (i : Issue) : Z :=
  Z.min (raw_complexity lib i) 10.

(** ** [route_issue] *)

(** [get_pattern_name]: the dict literal iterates in insertion order. *)
Definition rule_patterns : list (string * string) := [
  ("S3516", "pattern-single-return");
  ("S128", "pattern-switch-cases");
  ("2794", "pattern-async-await");
  ("2307", "pattern-import-fixes");
  ("2345", "pattern-type-assertions")
].

Fixpoint first_pattern (rid : string) (tbl : list (string * string)) : string :=
  match tbl with
  | [] => "pattern-general"
  | (frag, pat) :: rest =>
    if PyStr.contains frag rid then pat else first_pattern rid rest
  end.

Definition get_pattern_name (i : Issue) : string :=
  first_pattern (rule_id i) rule_patterns.

(** [route_issue].  The results of the collaborators are inputs:
    [already_resolved] is what [check_already_resolved(issue)] returned,
    [similar] what [find_similar_fixes(issue)] returned and [now] the
    timestamp [datetime.now().isoformat()]. *)
Definition route_issue (lib : Library) (already_resolved : bool)
    (similar : list string) (now : string) (i : Issue) : Job :=
  if already_resolved then
    mkJob ("job-" ++ issue_id i) i "SKIP" 0 1 (Some "already-resolved") []
          "NONE" [] now
  else
    let complexity := calculate_complexity lib i in
    if complexity <=? 3 then
      mkJob ("job-" ++ issue_id i) i "SPEED" complexity 5
            (Some (get_pattern_name i)) [] "BASIC" similar now
    else
      let agents :=
        app (if (String.eqb (category i) "security"
             || PyStr.contains "auth" (PyStr.lower (file_path i)))%bool
         then ["security-officer"] else [])
            (if 8 <=? complexity then ["architecture-reviewer"] else []) in
      mkJob ("job-" ++ issue_id i) i "DEEP" complexity (complexity * 3)
            None agents "COMPREHENSIVE" similar now.

(** ** Categorisation and severity tables used by ingestion *)

Definition any_in (frags : list string) (s : string) : bool :=
  existsb (fun r => PyStr.contains r s) frags.

(** [categorize_sonar_rule] *)
Definition categorize_sonar_rule (rule : string) : string :=
  if any_in ["S2068"; "S2070"; "S3649"; "S4502"; "S5122"] rule then "security"
  else if any_in ["S1854"; "S1481"; "S3776"] rule then "performance"
  else if any_in ["S3516"; "S128"; "S1172"] rule then "maintainability"
  else "general".

(** [x in [...]] for a list of strings. *)
Definition str_mem (x : string) (l : list string) : bool :=
  existsb (String.eqb x) l.

(** [categorize_ts_error] *)
Definition categorize_ts_error (error_code : string) : string :=
  if str_mem error_code ["2345"; "2322"; "2339"; "2304"] then "types"
  else if str_mem error_code ["1308"; "2335"; "2794"] then "async"
  else if str_mem error_code ["2307"; "2306"; "2305"] then "imports"
  else "syntax".

(** [map_ts_severity] *)
Definition map_ts_severity (error_code : string) : string :=
  if str_mem error_code ["1005"; "1109"; "1128"] then "CRITICAL"
  else if str_mem error_code ["2345"; "2322"; "2339"] then "MAJOR"
  else "MINOR".

(** [map_coderabbit_severity], after the [.lower()] of its argument. *)
Definition map_coderabbit_severity (sev : string) : string :=
  let s := PyStr.lower sev in
  if String.eqb s "critical" then "CRITICAL"
  else if String.eqb s "major" then "MAJOR"
  else if String.eqb s "minor" then "MINOR"
  else if String.eqb s "refactor" then "MINOR"
  else if String.eqb s "style" then "INFO"
  else "MINOR".

(** ** JSON values and Python exceptions *)

(** What [json.load] returns; numbers are integers (floats are not
    modelled). *)
Set Warnings "-register-all".
Inductive json :=
| JNull
| JBool (b : bool)
| JNum (z : Z)
| JStr (s : string)
| JArr (l : list json)
| JObj (kvs : list (string * json)).

(** The exceptions of the ingestion code. *)
Inductive exc :=
| JSONDecodeError
| UnicodeDecodeError
| AttributeError
| TypeError
| ValueError
| KeyError
| IndexError
| RecursionError.

Inductive result (A : Type) :=
| Ok (a : A)
| Raise (e : exc).
Arguments Ok {A} a.
Arguments Raise {A} e.

Definition bind {A B} (m : result A) (k : A -> result B) : result B :=
  match m with
  | Ok a => k a
  | Raise e => Raise e
  end.

Notation "x <- m ;; k" := (bind m (fun x => k))
  (at level 61, m at next level, right associativity).

Fixpoint mapM {A B} (f : A -> result B) (l : list A) : result (list B) :=
  match l with
  | [] => Ok []
  | a :: rest => b <- f a ;; bs <- mapM f rest ;; Ok (b :: bs)
  end.

(** The dict that [json.load] builds from an object: a repeated key keeps
    its first position and its last value. *)
Fixpoint dict_set (k : string) (v : json) (d : list (string * json)) :=
  match d with
  | [] => [(k, v)]
  | (k', v') :: rest =>
    if String.eqb k k' then (k, v) :: rest else (k', v') :: dict_set k v rest
  end.

Definition py_dict (kvs : list (string * json)) : list (string * json) :=
  fold_left (fun d kv => dict_set (fst kv) (snd kv) d) kvs [].

(** [d.get(k)] ([None] when absent). *)
Definition dget (kvs : list (string * json)) (k : string) : option json :=
  match find (fun kv => String.eqb (fst kv) k) (py_dict kvs) with
  | Some (_, v) => Some v
  | None => None
  end.

(** [d.get(k, default)] *)
Definition dget_or (kvs : list (string * json)) (k : string) (dflt : json) : json :=
  match dget kvs k with Some v => v | None => dflt end.

(** [repr] of a JSON value (quotes of strings not escaped). *)
Fixpoint py_repr (j : json) : string :=
  match j with
  | JNull => "None"
  | JBool true => "True"
  | JBool false => "False"
  | JNum z => PyStr.of_Z z
  | JStr s => "'" ++ s ++ "'"
  | JArr l => "[" ++ PyStr.join ", " (map py_repr l) ++ "]"
  | JObj kvs =>
    "{" ++ PyStr.join ", " (map (fun kv => "'" ++ fst kv ++ "': " ++ py_repr (snd kv)) kvs)
        ++ "}"
  end.

(** [str(x)] / [f"{x}"], with [None] for an absent key. *)
Definition py_str (o : option json) : string :=
  match o with
  | None => "None"
  | Some (JStr s) => s
  | Some j => py_repr j
  end.

(** [for item in v]: a list yields its elements, a dict its keys, a string
    its characters; other values are not iterable. *)
Definition py_iter (v : json) : result (list json) :=
  match v with
  | JArr l => Ok l
  | JObj kvs => Ok (map (fun kv => JStr (fst kv)) (py_dict kvs))
  | JStr s => Ok (map (fun c => JStr (String c EmptyString)) (list_ascii_of_string s))
  | _ => Raise TypeError
  end.

(** [x.upper()] / [x.lower()] on a JSON value: only strings have them. *)
Definition str_method (j : json) : result string :=
  match j with JStr s => Ok s | _ => Raise AttributeError end.

(** Contents of a report file as [json.load] sees them. *)
Inductive json_file :=
| Undecodable            (* bytes that do not decode *)
| Malformed              (* text that is not JSON *)
| TooDeep                (* JSON nested beyond the interpreter's recursion limit *)
| HugeInt                (* an integer literal of more than 4300 digits *)
| Doc (j : json).

(** Contents of a text file iterated line by line. *)
Inductive text_file :=
| TUndecodable
| TLines (ls : list string).

(** [json.load(f)] *)
Definition json_load (f : json_file) : result json :=
  match f with
  | Undecodable => Raise UnicodeDecodeError
  | Malformed => Raise JSONDecodeError
  | TooDeep => Raise RecursionError
  | HugeInt => Raise ValueError
  | Doc j => Ok j
  end.

(** [x in v] for a string [x]: a substring test on a string, element
    equality on a list, key membership on a dict; [TypeError] on [None],
    numbers and booleans. *)
Definition py_in (x : string) (v : json) : result bool :=
  match v with
  | JStr s => Ok (PyStr.contains x s)
  | JArr l => Ok (existsb (fun j => match j with JStr s => String.eqb x s | _ => false end) l)
  | JObj kvs => Ok (match dget kvs x with Some _ => true | None => false end)
  | _ => Raise TypeError
  end.

(** [any(r in v for r in frags)], stopping at the first hit. *)
Fixpoint any_in_py (frags : list string) (v : json) : result bool :=
  match frags with
  | [] => Ok false
  | r :: rest => b <- py_in r v ;; if b then Ok true else any_in_py rest v
  end.

(** [categorize_sonar_rule(rule)] on the value a record gives for [rule]
    (the annotation [rule: str] is not checked). *)
Definition categorize_sonar_rule_py (rule : json) : result string :=
  b1 <- any_in_py ["S2068"; "S2070"; "S3649"; "S4502"; "S5122"] rule ;;
  if b1 then Ok "security" else
  b2 <- any_in_py ["S1854"; "S1481"; "S3776"] rule ;;
  if b2 then Ok "performance" else
  b3 <- any_in_py ["S3516"; "S128"; "S1172"] rule ;;
  if b3 then Ok "maintainability" else Ok "general".

(** The [Issue] object the ingestion code builds.  The dataclass does not
    check its annotations: [id], [rule_id], [file_path], [line] and
    [message] hold the JSON values of the record as they are.  [severity]
    and [category] are strings (results of [.upper()], of the severity maps
    and of the categorizers, or literals).  [raw_data] is not modelled. *)
Record PyIssue := mkPyIssue {
  py_id : json;
  py_source : string;
  py_severity : string;
  py_rule_id : json;
  py_file_path : json;
  py_line : json;
  py_message : json;
  py_category : string
}.

(** An [Issue] built from values of the annotated types. *)
Definition py_of_issue (i : Issue) : PyIssue :=
  mkPyIssue (JStr (issue_id i)) (source i) (severity i) (JStr (rule_id i))
            (JStr (file_path i)) (JNum (line i)) (JStr (message i)) (category i).

(** The object as an [Issue] of the annotated types, when its fields have
    them. *)
Definition typed_issue (p : PyIssue) : option Issue :=
  match py_id p, py_rule_id p, py_file_path p, py_line p, py_message p with
  | JStr id, JStr r, JStr fp, JNum ln, JStr m =>
    Some (mkIssue id (py_source p) (py_severity p) r fp ln m (py_category p))
  | _, _, _, _, _ => None
  end.

(** ** Ingestion *)

Section Ingestion.

(** [hashlib.md5(s.encode()).hexdigest()[:8]]: any function of the string. *)
Variable md5_hex8 : string -> string.

(** One record of the standard SonarQube format ([else] branch of
    [ingest_sonarqube]).  A record that is not a dict has no [.get]
    ([AttributeError]).  The [Issue(...)] arguments are evaluated in order:
    the id (an f-string, which formats any value), [severity] ([.upper()]
    of a non-string raises [AttributeError]), the fields taken as they
    are, then [categorize_sonar_rule] on the [rule] value. *)
Definition sonar_std_item (item : json) : result PyIssue :=
  match item with
  | JObj kv =>
    let component_line := py_str (dget kv "component") ++ py_str (dget kv "line") in
    let hash_suffix := md5_hex8 component_line in
    let id := "sonar-" ++ py_str (dget kv "rule") ++ "-" ++ hash_suffix in
    sev <- str_method (dget_or kv "severity" (JStr "UNKNOWN")) ;;
    let rule := dget_or kv "rule" (JStr EmptyString) in
    cat <- categorize_sonar_rule_py rule ;;
    Ok (mkPyIssue (JStr id) "sonarqube" (PyStr.upper sev) rule
                  (dget_or kv "component" (JStr EmptyString)) (dget_or kv "line" (JNum 0))
                  (dget_or kv "message" (JStr EmptyString)) cat)
  | _ => Raise AttributeError
  end.

(** One record of the WedSync custom format, under the outer key [sev_key].
    The default id is formatted before [.get] is called, whatever the
    record's [id]. *)
Definition sonar_custom_item (sev_key : string) (item : json) : result PyIssue :=
  match item with
  | JObj kv =>
    let file_line_key := py_str (dget kv "file") ++ py_str (dget kv "line") in
    let hash_suffix := md5_hex8 file_line_key in
    let id := dget_or kv "id" (JStr ("sonar-" ++ py_str (dget kv "rule") ++ "-" ++ hash_suffix)) in
    sev <- str_method (dget_or kv "severity" (JStr sev_key)) ;;
    let rule := dget_or kv "rule" (JStr EmptyString) in
    cat <- categorize_sonar_rule_py rule ;;
    Ok (mkPyIssue id "sonarqube" (PyStr.upper sev) rule
                  (dget_or kv "file" (JStr EmptyString)) (dget_or kv "line" (JNum 0))
                  (dget_or kv "message" (JStr EmptyString)) cat)
  | _ => Raise AttributeError
  end.

(** [for severity, category_data in data['error_categories'].items()]. *)
Definition sonar_custom (ec : json) : result (list PyIssue) :=
  match ec with
  | JObj cats =>
    per_cat <- mapM (fun sc =>
      match snd sc with
      | JObj cd =>
        items <- py_iter (dget_or cd "issues" (JArr [])) ;;
        mapM (sonar_custom_item (fst sc)) items
      | _ => Raise AttributeError
      end) (py_dict cats) ;;
    Ok (concat per_cat)
  | _ => Raise AttributeError
  end.

(** The body of [ingest_sonarqube] after [json.load].  [if 'error_categories'
    in data] raises [TypeError] on [None], numbers and booleans; on a list
    or a string that contains ['error_categories'], [data['error_categories']]
    raises [TypeError]; on any other list or string, [data.get] raises
    [AttributeError]. *)
Definition sonar_doc (data : json) : result (list PyIssue) :=
  b <- py_in "error_categories" data ;;
  match data with
  | JObj kv =>
    match dget kv "error_categories" with
    | Some ec => sonar_custom ec
    | None =>
      items <- py_iter (dget_or kv "issues" (JArr [])) ;;
      mapM sonar_std_item items
    end
  | _ => if b then Raise TypeError else Raise AttributeError
  end.

(** [ingest_sonarqube]: the [try] around [json.load] returns [[]] on
    [UnicodeDecodeError] and [JSONDecodeError]; the other errors of
    [json.load] propagate. *)
Definition ingest_sonarqube (f : json_file) : result (list PyIssue) :=
  match json_load f with
  | Raise UnicodeDecodeError => Ok []
  | Raise JSONDecodeError => Ok []
  | Raise e => Raise e
  | Ok data => sonar_doc data
  end.

(** One record of [ingest_coderabbit]: [map_coderabbit_severity] calls
    [.lower()] on the record's [severity] ([AttributeError] for a
    non-string); the other fields are taken as they are. *)
Definition coderabbit_item (item : json) : result PyIssue :=
  match item with
  | JObj kv =>
    let file_line_key := py_str (dget kv "file") ++ py_str (dget kv "line") in
    let hash_suffix := md5_hex8 file_line_key in
    let id := "cr-" ++ py_str (dget kv "pr") ++ "-" ++ hash_suffix in
    sev <- str_method (dget_or kv "severity" (JStr "minor")) ;;
    let rid := "CR-" ++ py_str (Some (dget_or kv "severity" (JStr "refactor"))) in
    Ok (mkPyIssue (JStr id) "coderabbit" (map_coderabbit_severity sev) (JStr rid)
                  (dget_or kv "file" (JStr EmptyString)) (dget_or kv "line" (JNum 0))
                  (dget_or kv "summary" (JStr EmptyString)) "refactor")
  | _ => Raise AttributeError
  end.

(** [ingest_coderabbit]: no [try]; [json.load] errors propagate. *)
Definition ingest_coderabbit (f : json_file) : result (list PyIssue) :=
  data <- json_load f ;;
  items <- py_iter data ;;
  mapM coderabbit_item items.

(** One line of [ingest_typescript]; [Ok None] for a line that yields no
    issue.  [split] always returns a non-empty list, and [split('(')] has a
    second piece whenever ['(' in file_info], so the [nth] defaults are
    never used. *)
Definition ts_line (ln : string) : result (option Issue) :=
  if PyStr.contains "error TS" ln then
    match PyStr.split ": error TS" (PyStr.strip ln) with
    | file_info :: error_info :: _ =>
      let fp := nth 0 (PyStr.split "(" file_info) EmptyString in
      let line_info :=
        if PyStr.contains "(" file_info
        then nth 0 (PyStr.split ")" (nth 1 (PyStr.split "(" file_info) EmptyString)) EmptyString
        else "0,0" in
      line_number <-
        (if String.eqb line_info EmptyString then Ok 0
         else match PyStr.int_of_string (nth 0 (PyStr.split "," line_info) EmptyString) with
              | Some n => Ok n
              | None => Raise ValueError
              end) ;;
      let error_code := nth 0 (PyStr.split ":" error_info) EmptyString in
      let msg := PyStr.strip (PyStr.join ":" (tl (PyStr.split ":" error_info))) in
      let hash_suffix := md5_hex8 (fp ++ PyStr.of_Z line_number) in
      Ok (Some (mkIssue ("ts-" ++ error_code ++ "-" ++ hash_suffix) "typescript"
                        (map_ts_severity error_code) ("TS" ++ error_code)
                        fp line_number msg (categorize_ts_error error_code)))
    | _ => Ok None
    end
  else Ok None.

Fixpoint ts_lines (ls : list string) : result (list Issue) :=
  match ls with
  | [] => Ok []
  | l :: rest =>
    o <- ts_line l ;;
    is <- ts_lines rest ;;
    Ok (match o with Some i => i :: is | None => is end)
  end.

(** [ingest_typescript]: no [try]; a decoding error raised while iterating
    the file propagates. *)
Definition ingest_typescript (f : text_file) : result (list Issue) :=
  match f with
  | TUndecodable => Raise UnicodeDecodeError
  | TLines ls => ts_lines ls
  end.

(** A report handed to one of the ingestion entry points by [main]. *)
Inductive report :=
| SonarReport (f : json_file)
| CodeRabbitReport (f : json_file)
| TypeScriptReport (f : text_file).

(** The issues of a TypeScript report are built from typed values. *)
Definition ingest_report (r : report) : result (list PyIssue) :=
  match r with
  | SonarReport f => ingest_sonarqube f
  | CodeRabbitReport f => ingest_coderabbit f
  | TypeScriptReport f => is <- ingest_typescript f ;; Ok (map py_of_issue is)
  end.

(** The ingestion loop of [main] ([all_issues.extend(issues)] per report,
    in the order of the command line options or of the [INCOMING/] glob);
    an exception escaping an entry point ends [main]. *)
Fixpoint ingest_all (rs : list report) : result (list PyIssue) :=
  match rs with
  | [] => Ok []
  | r :: rest =>
    issues <- ingest_report r ;;
    more <- ingest_all rest ;;
    Ok (app issues more)
  end.

End Ingestion.

(** ** [parse-sonarqube.py] *)

(** List concatenation, since [++] is string concatenation here. *)
Infix "+++" := app (at level 60, right associativity).

Module ParseSonar.

(** [classify_category(rule, message)] on string arguments. *)
Definition classify_category (rule message : string) : string :=
  let rule_lower := PyStr.lower rule in
  let message_lower := PyStr.lower message in
  if (PyStr.contains "S4123" rule || PyStr.contains "await" message_lower
      || PyStr.contains "async" message_lower)%bool then "ASYNC-AWAIT"
  else if (PyStr.contains "deprecated" rule_lower
           || PyStr.contains "deprecated" message_lower)%bool then "DEPRECATED-API"
  else if (PyStr.contains "complexity" rule_lower
           || PyStr.contains "complex" message_lower)%bool then "COMPLEXITY"
  else if (PyStr.contains "TS" rule || PyStr.contains "type" rule_lower
           || PyStr.contains "type" message_lower)%bool then "TYPE-ERRORS"
  else if (PyStr.contains "security" rule_lower || PyStr.contains "auth" rule_lower
           || PyStr.contains "password" message_lower)%bool then "SECURITY"
  else if (PyStr.contains "unused" message_lower || PyStr.contains "S1128" rule)%bool
  then "UNUSED-CODE"
  else if PyStr.contains "duplicate" message_lower then "DUPLICATION"
  else "GENERAL".

(** [generate_fix_instructions(rule, message)]: the default f-string is
    built before the [dict.get]. *)
Definition fix_instruction_table : list (string * string) := [
  ("typescript:S4123", "Add or remove await keyword as appropriate. Check if the value is actually a Promise.");
  ("typescript:S1128", "Remove unused import statement");
  ("typescript:S6582", "Update deprecated API to new version");
  ("typescript:S117", "Rename variable to follow naming convention");
  ("typescript:S1854", "Remove dead code that is never executed");
  ("typescript:S3776", "Refactor to reduce cognitive complexity");
  ("typescript:S2589", "Remove redundant boolean literal in condition");
  ("typescript:S1186", "Add implementation or mark as abstract")
].

Definition generate_fix_instructions (rule message : string) : string :=
  let dflt := "Fix issue: " ++ PyStr.take 100 message in
  match find (fun kv => String.eqb (fst kv) rule) fix_instruction_table with
  | Some (_, v) => v
  | None => dflt
  end.

(** [generate_verification_requirements(severity, rule)] *)
Definition generate_verification_requirements (severity rule : string) : list string :=
  if str_mem severity ["BLOCKER"; "CRITICAL"] then
    ["Run full test suite"; "Deploy all verification agents";
     "Check pattern compliance with Ref MCP"; "Verify no regressions introduced";
     "Production guardian approval required"; "Performance impact assessment";
     "Security audit if auth/payment related"]
  else if String.eqb severity "MAJOR" then
    ["Run related tests"; "Pattern check with Ref MCP"; "Performance verification";
     "Check connected features"; "Verify business logic intact"]
  else if String.eqb severity "MINOR" then
    ["Basic verification"; "Build must pass"; "Type checking must pass"; "Lint must pass"]
  else ["Build verification"; "Visual inspection"].

(** [generate_ref_queries(rule, file_path)] *)
Definition generate_ref_queries (rule file_path : string) : list string :=
  let base_name := PyStr.basename file_path in
  let dir_name := PyStr.dirname file_path in
  ["site:wedsync " ++ base_name ++ " implementation patterns";
   "WedSync " ++ rule ++ " best practice fix";
   rule ++ " common solutions TypeScript"]
  +++ (if PyStr.contains "api" dir_name then ["WedSync API endpoint patterns"] else [])
  +++ (if PyStr.contains "components" dir_name
             then ["WedSync React component patterns"] else [])
  +++ (if (PyStr.contains "lib" dir_name || PyStr.contains "utils" dir_name)%bool
             then ["WedSync utility function patterns"] else []).

(** The list [agents] built by [select_agents] before [list(set(agents))]. *)
Definition agents_before_dedup (severity rule : string) : list string :=
  let base :=
    if str_mem severity ["BLOCKER"; "CRITICAL"] then
      ["pre-code-knowledge-gatherer"; "security-compliance-officer";
       "performance-optimization-expert"; "test-automation-architect";
       "production-guardian"]
    else if String.eqb severity "MAJOR" then
      ["pre-code-knowledge-gatherer"; "specification-compliance-overseer";
       "test-automation-architect"]
    else if String.eqb severity "MINOR" then ["pre-code-knowledge-gatherer"]
    else [] in
  let rule_lower := PyStr.lower rule in
  base
  +++ (if (PyStr.contains "security" rule_lower || PyStr.contains "auth" rule_lower
                 || PyStr.contains "S5659" rule)%bool
             then ["security-compliance-officer"] else [])
  +++ (if (PyStr.contains "performance" rule_lower
                 || PyStr.contains "complexity" rule_lower)%bool
             then ["performance-optimization-expert"] else [])
  +++ (if PyStr.contains "test" rule_lower then ["test-automation-architect"] else []).

(** [select_agents]: [list(set(agents))].  Python's set order is arbitrary;
    the model keeps first occurrences, so only membership and the absence
    of repeats are meaningful. *)
Definition select_agents (severity rule : string) : list string :=
  nodup string_dec (agents_before_dedup severity rule).

(** The list [features] built by [identify_connected_features]. *)
Definition features_before_dedup (file_path : string) : list string :=
  let p := PyStr.lower file_path in
  (if (PyStr.contains "payment" p || PyStr.contains "checkout" p)%bool
   then ["payments"; "checkout"; "invoicing"] else [])
  +++ (if (PyStr.contains "auth" p || PyStr.contains "login" p)%bool
             then ["authentication"; "user-management"; "session"] else [])
  +++ (if PyStr.contains "timeline" p
             then ["timeline"; "scheduling"; "vendor-coordination"] else [])
  +++ (if PyStr.contains "vendor" p
             then ["vendor-management"; "vendor-communication"] else [])
  +++ (if (PyStr.contains "client" p || PyStr.contains "customer" p)%bool
             then ["client-management"; "crm"] else [])
  +++ (if (PyStr.contains "photo" p || PyStr.contains "image" p
                 || PyStr.contains "gallery" p)%bool
             then ["photo-management"; "gallery"; "media"] else [])
  +++ (if (PyStr.contains "notification" p || PyStr.contains "email" p)%bool
             then ["notifications"; "communication"] else []).

(** [identify_connected_features] (set order as for [select_agents]). *)
Definition identify_connected_features (file_path : string) : list string :=
  match features_before_dedup file_path with
  | [] => ["general"]
  | fs => nodup string_dec fs
  end.

(** [assess_business_impact(severity, file_path)] *)
Definition assess_business_impact (severity file_path : string) : string :=
  let p := PyStr.lower file_path in
  if (PyStr.contains "payment" p || PyStr.contains "billing" p)%bool
  then "HIGH - Payment processing affected"
  else if (PyStr.contains "auth" p || PyStr.contains "security" p)%bool
  then "HIGH - Security and access control"
  else if (PyStr.contains "timeline" p || PyStr.contains "schedule" p)%bool
  then "HIGH - Wedding day coordination"
  else if str_mem severity ["BLOCKER"; "CRITICAL"] then "HIGH - Critical functionality"
  else if (PyStr.contains "vendor" p || PyStr.contains "client" p)%bool
  then "MEDIUM - User management affected"
  else if String.eqb severity "MAJOR" then "MEDIUM - Feature functionality"
  else "LOW - Code quality improvement".

(** [assess_complexity(rule, message)] *)
Definition assess_complexity (rule message : string) : string :=
  let m := PyStr.lower message in
  if (PyStr.contains "unused" m || PyStr.contains "S1128" rule)%bool then "low"
  else if (PyStr.contains "rename" m || PyStr.contains "naming" m)%bool then "low"
  else if PyStr.contains "S4123" rule then "low"
  else if PyStr.contains "deprecated" m then "medium"
  else if PyStr.contains "duplicate" m then "medium"
  else if (PyStr.contains "complexity" m || PyStr.contains "refactor" m)%bool then "high"
  else if PyStr.contains "security" m then "high"
  else "medium".

(** The [error_obj] dict written for one issue. *)
Record ErrorObj := mkErrorObj {
  eo_id : string;
  eo_source : string;
  eo_severity : string;
  eo_category : string;
  eo_rule : string;
  eo_file : string;
  eo_line : json;
  eo_message : string;
  eo_effort : json;
  eo_fix_instructions : string;
  eo_verification_requirements : list string;
  eo_ref_mcp_queries : list string;
  eo_required_agents : list string;
  eo_connected_features : list string;
  eo_business_impact : string;
  eo_fix_complexity : string;
  eo_rollback_instructions : string
}.

(** A written file: the operands of the [/] chain that names it below
    [output_dir] ([Path(output_dir) / 'BY-SEVERITY' / severity / name]),
    and its contents.  pathlib resolves the chain: an absolute operand
    replaces what precedes it, so the operands give the file's name but not
    always its directory. *)
Definition Written := (list string * ErrorObj)%type.

(** The [stats] dict, keys in insertion order. *)
Definition stats0 : list (string * Z) :=
  [("BLOCKER", 0); ("CRITICAL", 0); ("MAJOR", 0); ("MINOR", 0); ("INFO", 0)].

(** [if severity in stats: stats[severity] += 1] *)
Fixpoint bump (k : string) (st : list (string * Z)) : list (string * Z) :=
  match st with
  | [] => []
  | (k', n) :: rest => if String.eqb k k' then (k', n + 1) :: rest else (k', n) :: bump k rest
  end.

(** The body of the loop for the record [issue] at index [idx]: [None]
    when the record is skipped for an empty file path.  The directory
    creation and the write are taken to succeed: when the file system
    refuses one of them, Python raises out of [parse_sonarqube_results], so
    a call that returns its stats has written every file.  [rule] and
    [message] are fetched as they are and first used as strings by
    [classify_category] ([.lower()], [AttributeError] otherwise). *)
Definition parse_record (idx : Z) (issue : json) : result (option Written) :=
  match issue with
  | JObj kv =>
    sev <- str_method (dget_or kv "severity" (JStr "INFO")) ;;
    let severity := PyStr.upper sev in
    let rule := dget_or kv "rule" (JStr "unknown") in
    comp <- str_method (dget_or kv "component" (JStr EmptyString)) ;;
    let file_path := PyStr.replace "WedSync:" EmptyString comp in
    let ln := dget_or kv "line" (JNum 0) in
    let message := dget_or kv "message" (JStr EmptyString) in
    let effort := dget_or kv "effort" (JStr "5min") in
    if String.eqb file_path EmptyString then Ok None else
    rule_s <- str_method rule ;;
    msg_s <- str_method message ;;
    let id := "SQ-" ++ PyStr.pad5 idx in
    Ok (Some (["BY-SEVERITY"; severity; id ++ ".json"],
              mkErrorObj id "SonarQube" severity (classify_category rule_s msg_s)
                rule_s file_path ln msg_s effort
                (generate_fix_instructions rule_s msg_s)
                (generate_verification_requirements severity rule_s)
                (generate_ref_queries rule_s file_path)
                (select_agents severity rule_s)
                (identify_connected_features file_path)
                (assess_business_impact severity file_path)
                (assess_complexity rule_s msg_s)
                ("git checkout -- " ++ file_path)))
  | _ => Raise AttributeError
  end.

(** [for idx, issue in enumerate(issues)] from index [idx]. *)
Fixpoint parse_loop (idx : Z) (items : list json) (st : list (string * Z))
    : result (list Written * list (string * Z)) :=
  match items with
  | [] => Ok ([], st)
  | item :: rest =>
    o <- parse_record idx item ;;
    match o with
    | None => parse_loop (idx + 1) rest st
    | Some w =>
      r <- parse_loop (idx + 1) rest (bump (eo_severity (snd w)) st) ;;
      Ok (w :: fst r, snd r)
    end
  end.

(** [len(issues)] *)
Definition py_len (v : json) : result nat :=
  match v with
  | JArr l => Ok (length l)
  | JObj kvs => Ok (length (py_dict kvs))
  | JStr s => Ok (String.length s)
  | _ => Raise TypeError
  end.

(** [parse_sonarqube_results]: [None] for a missing input file; the result
    [None] is the function's [return None]. *)
Definition parse_sonarqube_results (input : option json_file)
    : result (option (list Written * list (string * Z))) :=
  match input with
  | None => Ok None
  | Some f =>
    data <- json_load f ;;
    issues <- (match data with
               | JArr _ => Ok data
               | JObj kv => Ok (dget_or kv "issues" (JArr []))
               | _ => Raise AttributeError
               end) ;;
    n <- py_len issues ;;
    if Nat.eqb n 0 then Ok None else
    items <- py_iter issues ;;
    r <- parse_loop 0 items stats0 ;;
    Ok (Some r)
  end.

End ParseSonar.

(** ** Job queues: [save_job] *)

(** The queue directory of [save_job], below [JOB-QUEUES].  [if job.pattern:]
    is false for [None] and for the empty string. *)
Definition queue_dir (j : Job) : list string :=
  if String.eqb (job_type j) "SPEED" then
    match pattern j with
    | Some p => if String.eqb p EmptyString then ["SPEED-JOBS"; "pattern-general"]
                else ["SPEED-JOBS"; p]
    | None => ["SPEED-JOBS"; "pattern-general"]
    end
  else if String.eqb (job_type j) "DEEP" then
    if String.eqb (category (job_issue j)) "security" then ["DEEP-JOBS"; "security-sensitive"]
    else if 8 <=? complexity_score j then ["DEEP-JOBS"; "architecture-changes"]
    else ["DEEP-JOBS"; "new-patterns"]
  else if String.eqb (job_type j) "SKIP" then ["SKIP-JOBS"]
  else ["FAILED-ROUTING"].

(** The orchestrator's [self.stats] dict, keys in insertion order. *)
Definition orch_stats0 : list (string * Z) :=
  [("total_issues", 0); ("speed_jobs", 0); ("deep_jobs", 0); ("skip_jobs", 0);
   ("failed_routing", 0)].

(** [d[k] += 1]: [KeyError] when [k] is not a key. *)
Fixpoint dict_incr (k : string) (d : list (string * Z)) : result (list (string * Z)) :=
  match d with
  | [] => Raise KeyError
  | (k', n) :: rest =>
    if String.eqb k k' then Ok ((k', n + 1) :: rest)
    else r <- dict_incr k rest ;; Ok ((k', n) :: r)
  end.

Fixpoint dict_find (k : string) (d : list (string * Z)) : option Z :=
  match d with
  | [] => None
  | (k', n) :: rest => if String.eqb k k' then Some n else dict_find k rest
  end.

(** A job file: its directory below [JOB-QUEUES], its name and the job. *)
Definition JobFile := (list string * string * Job)%type.

(** [save_job]: the job file written, then the stats update
    [self.stats[f'{job.job_type.lower()}_jobs'] += 1], which may raise
    after the file is written.  The write itself is taken to succeed; it
    does not when the file system refuses it, for instance for a job id
    containing ['/'], which names a file in a directory [save_job] does not
    create ([FileNotFoundError] before the stats update). *)
Definition job_file (j : Job) : JobFile := (queue_dir j, job_id j ++ ".json", j).

Definition save_job (j : Job) (stats : list (string * Z))
    : JobFile * result (list (string * Z)) :=
  (job_file j, dict_incr (PyStr.lower (job_type j) ++ "_jobs") stats).

(** [line.split()[0]]: [IndexError] for a line of whitespace only. *)
Definition first_token (ln : string) : result string :=
  match PyStr.split_ws ln with
  | t :: _ => Ok t
  | [] => Raise IndexError
  end.

(** [find_similar_fixes] given what [subprocess.run(['git', 'log', ...])]
    did: [None] when it raised, otherwise its return code and stdout.  Any
    exception is caught and gives [[]]. *)
Definition find_similar_fixes (git : option (Z * string)) : list string :=
  match git with
  | None => []
  | Some (rc, out) =>
    if Z.eqb rc 0 then
      match mapM first_token
              (filter (fun l => negb (String.eqb l EmptyString))
                      (PyStr.split (String "010"%char EmptyString) (PyStr.strip out))) with
      | Ok hs => hs
      | Raise _ => []
      end
    else []
  end.

(** ** The [--process-everything] ingestion of [main] *)

(** Which entry point [main] gives a [*.json] file of [INCOMING/]. *)
Inductive incoming_kind := InSonar | InCodeRabbit.

Definition incoming_kind_of (name : string) : option incoming_kind :=
  if PyStr.starts_with "._" name then None else
  let n := PyStr.lower name in
  if PyStr.contains "sonarqube" n then Some InSonar
  else if PyStr.contains "coderabbit" n then Some InCodeRabbit
  else if PyStr.contains "performance" n then Some InCodeRabbit
  else if PyStr.contains "synthetic" n then Some InSonar
  else if PyStr.contains "production" n then Some InSonar
  else if PyStr.contains "realistic" n then Some InSonar
  else None.

Definition incoming_report (nf : string * json_file) : list report :=
  match incoming_kind_of (fst nf) with
  | Some InSonar => [SonarReport (snd nf)]
  | Some InCodeRabbit => [CodeRabbitReport (snd nf)]
  | None => []
  end.

(** The [*.json] files in glob order, then the [typescript*.txt] files. *)
Definition process_everything_ingest (md5 : string -> string)
    (json_files : list (string * json_file)) (ts_files : list text_file)
    : result (list PyIssue) :=
  ingest_all md5 (flat_map incoming_report json_files +++ map TypeScriptReport ts_files).

(** * Properties *)

(** ** Small checks of the string primitives *)

Example split_ts_line :
  PyStr.split ": error TS" "foo.ts(12,3): error TS2307: Cannot"
  = ["foo.ts(12,3)"; "2307: Cannot"].
Proof. reflexivity. Qed.

Example replace_pattern_key :
  PyStr.replace "ts" "typescript-" (PyStr.lower "TSmissing-await")
  = "typescript-missing-await".
Proof. reflexivity. Qed.

Example int_of_string_12 : PyStr.int_of_string "12" = Some 12.
Proof. reflexivity. Qed.

Example int_of_string_underscores :
  PyStr.int_of_string " 1_0 " = Some 10 /\ PyStr.int_of_string "-0_07" = Some (-7) /\
  PyStr.int_of_string "1__0" = None /\ PyStr.int_of_string "_1" = None /\
  PyStr.int_of_string "1_" = None /\ PyStr.int_of_string "+" = None.
Proof. repeat split; reflexivity. Qed.

(** ** Scorer and router *)

(** Concrete issues at the SPEED/DEEP boundary: MINOR + performance = 4,
    INFO + performance = 3. *)
Definition boundary_issue (sev : string) : Issue :=
  mkIssue "sonar-S1481-0" "sonarqube" sev "typescript:S1481" "src/lib/a.ts" 3
          "unused local" "performance".

Example boundary_scores :
  calculate_complexity default_patterns (boundary_issue "INFO") = 3 /\
  calculate_complexity default_patterns (boundary_issue "MINOR") = 4.
Proof. split; reflexivity. Qed.

Example boundary_routes :
  job_type (route_issue default_patterns false [] "t" (boundary_issue "INFO")) = "SPEED" /\
  job_type (route_issue default_patterns false [] "t" (boundary_issue "MINOR")) = "DEEP" /\
  estimated_minutes (route_issue default_patterns false [] "t" (boundary_issue "MINOR")) = 12.
Proof. repeat split; reflexivity. Qed.

(** [first_pattern] returns the pattern of the first fragment of the table
    contained in the rule id, or ["pattern-general"] when there is none. *)
Lemma first_pattern_spec (rid : string) (tbl : list (string * string)) :
  (exists pre frag post,
      tbl = app pre ((frag, first_pattern rid tbl) :: post) /\
      PyStr.contains frag rid = true /\
      Forall (fun fp => PyStr.contains (fst fp) rid = false) pre) \/
  (first_pattern rid tbl = "pattern-general" /\
   Forall (fun fp => PyStr.contains (fst fp) rid = false) tbl).
Proof.
  induction tbl as [|[frag pat] rest IH]; simpl.
  - right. split; [reflexivity | constructor].
  - destruct (PyStr.contains frag rid) eqn:Hc.
    + left. exists [], frag, rest. repeat split; [assumption | constructor].
    + destruct IH as [(pre & f & post & Heq & Hf & Hpre) | [Hg Hall]].
      * left. exists ((frag, pat) :: pre), f, post.
        split; [simpl; f_equal; exact Heq|].
        split; [exact Hf | constructor; assumption].
      * right. split; [assumption | constructor; assumption].
Qed.

(** C1: for an issue that is not already resolved, a score [<= 3] (so 3
    itself) gives a SPEED job with BASIC verification, 5 minutes and the
    pattern of the first rule fragment contained in the rule id
    (["pattern-general"] when none is); a score [> 3] (so 4 itself) gives a
    DEEP job with COMPREHENSIVE verification, [score * 3] minutes and no
    pattern. *)
Theorem route_issue_threshold (lib : Library) (similar : list string)
    (now : string) (i : Issue) :
  let j := route_issue lib false similar now i in
  let c := calculate_complexity lib i in
  (c <= 3 ->
     job_type j = "SPEED" /\ verification_level j = "BASIC" /\
     estimated_minutes j = 5 /\ complexity_score j = c /\
     exists p, pattern j = Some p /\
       ((exists pre frag post,
           rule_patterns = app pre ((frag, p) :: post) /\
           PyStr.contains frag (rule_id i) = true /\
           Forall (fun fp => PyStr.contains (fst fp) (rule_id i) = false) pre) \/
        (p = "pattern-general" /\
         Forall (fun fp => PyStr.contains (fst fp) (rule_id i) = false) rule_patterns))) /\
  (3 < c ->
     job_type j = "DEEP" /\ verification_level j = "COMPREHENSIVE" /\
     estimated_minutes j = c * 3 /\ complexity_score j = c /\ pattern j = None).
Proof.
  intros j c. subst j c. unfold route_issue. split; intro Hc.
  - apply Z.leb_le in Hc. rewrite Hc. simpl.
    repeat split. exists (get_pattern_name i). split; [reflexivity|].
    apply first_pattern_spec.
  - assert (Hn : (calculate_complexity lib i <=? 3) = false) by (apply Z.leb_gt; lia).
    rewrite Hn. simpl. repeat split.
Qed.

(** C7: an issue for which the already-resolved check returns true yields
    the SKIP job (verification NONE, 1 minute, pattern
    ["already-resolved"], no agents), whatever the pattern library: the
    complexity is not computed. *)
Theorem route_issue_already_resolved (lib : Library) (similar : list string)
    (now : string) (i : Issue) :
  route_issue lib true similar now i =
    mkJob ("job-" ++ issue_id i) i "SKIP" 0 1 (Some "already-resolved") []
          "NONE" [] now /\
  (forall lib', route_issue lib' true similar now i = route_issue lib true similar now i).
Proof. split; reflexivity. Qed.

(** C8: a DEEP job lists the security officer when the category is
    security or the lower-cased path contains ["auth"], and the
    architecture reviewer when the score is at least 8; a SPEED job lists
    no agent. *)
Theorem route_issue_agents (lib : Library) (resolved : bool)
    (similar : list string) (now : string) (i : Issue) :
  let j := route_issue lib resolved similar now i in
  (job_type j = "DEEP" ->
     ((category i = "security" \/ PyStr.contains "auth" (PyStr.lower (file_path i)) = true) ->
        In "security-officer" (requires_agents j)) /\
     (8 <= complexity_score j -> In "architecture-reviewer" (requires_agents j))) /\
  (job_type j = "SPEED" -> requires_agents j = []).
Proof.
  intros j. subst j. unfold route_issue.
  destruct resolved; [simpl; split; discriminate|].
  destruct (calculate_complexity lib i <=? 3) eqn:Hc; simpl.
  - split; [discriminate | reflexivity].
  - split; [|discriminate]. intros _. split.
    + intros Hs. apply in_or_app. left.
      destruct Hs as [Hs | Hs].
      * rewrite Hs. simpl. left. reflexivity.
      * rewrite Hs, orb_true_r. left. reflexivity.
    + intros H8. apply in_or_app. right.
      apply Z.leb_le in H8. rewrite H8. left. reflexivity.
Qed.

(** Adjustment for the path and the category, added after the library step. *)
Definition adjustments (i : Issue) : Z :=
  (if in_sensitive_path i then 3 else 0) +
  (if String.eqb (category i) "security" then 4
   else if String.eqb (category i) "performance" then 2 else 0).

Lemma raw_complexity_split (lib : Library) (i : Issue) :
  raw_complexity lib i = library_score lib i + adjustments i.
Proof.
  unfold raw_complexity, adjustments.
  destruct (in_sensitive_path i), (String.eqb (category i) "security"),
           (String.eqb (category i) "performance"); lia.
Qed.

(** A library with an entry of complexity 2 reachable from rule ["S3516"]
    (pattern key ["s3516"]). *)
Definition entry_s3516 : PatternEntry :=
  mkEntry "single-return-refactor" (Some 2)
    "Multiple early returns -> Single return point" "BASIC" 5.

Definition lib_s3516 : Library := [("s3516", entry_s3516)].

Definition blocker_s3516 : Issue :=
  mkIssue "sonar-S3516-0" "sonarqube" "BLOCKER" "S3516" "src/lib/a.ts" 7
          "single return" "maintainability".

(** C2: when the pattern key of the issue is a library entry with a
    complexity [c], the score is [min (c + adjustments) 10]: [c] replaces the
    severity base.  So an entry of complexity 2, a path outside the
    sensitive segments and a category other than security and performance
    give 2, whatever the severity (BLOCKER included). *)
Theorem library_overrides_base (lib : Library) (i : Issue) (e : PatternEntry) (c : Z)
    (Hlook : lib_lookup (pattern_key i) lib = Some e)
    (Hc : entry_complexity e = Some c) :
  library_score lib i = c /\
  calculate_complexity lib i = Z.min (c + adjustments i) 10 /\
  (c = 2 -> in_sensitive_path i = false -> category i <> "security" ->
   category i <> "performance" ->
   forall sev, calculate_complexity lib {| issue_id := issue_id i; source := source i;
     severity := sev; rule_id := rule_id i; file_path := file_path i; line := line i;
     message := message i; category := category i |} = 2).
Proof.
  assert (Hls : library_score lib i = c)
    by (unfold library_score; rewrite Hlook, Hc; reflexivity).
  split; [exact Hls|]. split.
  - unfold calculate_complexity. rewrite raw_complexity_split, Hls. reflexivity.
  - intros H2 Hp Hs Hperf sev. rewrite H2 in Hc.
    set (i' := {| issue_id := issue_id i; source := source i; severity := sev;
                  rule_id := rule_id i; file_path := file_path i; line := line i;
                  message := message i; category := category i |}).
    assert (Hk : pattern_key i' = pattern_key i) by reflexivity.
    assert (Hp' : in_sensitive_path i' = in_sensitive_path i) by reflexivity.
    assert (Hcat : category i' = category i) by reflexivity.
    unfold calculate_complexity. rewrite raw_complexity_split.
    unfold library_score, adjustments. rewrite Hk, Hlook, Hc, Hp', Hp, Hcat.
    apply String.eqb_neq in Hs, Hperf. rewrite Hs, Hperf. reflexivity.
Qed.

Lemma library_overrides_base_witness :
  lib_lookup (pattern_key blocker_s3516) lib_s3516 = Some entry_s3516 /\
  calculate_complexity lib_s3516 blocker_s3516 = 2.
Proof.
  split; [reflexivity|].
  destruct (library_overrides_base lib_s3516 blocker_s3516 entry_s3516 2
              eq_refl eq_refl) as [_ [_ H]].
  exact (H eq_refl eq_refl ltac:(discriminate) ltac:(discriminate) "BLOCKER").
Defined.

(** C3: the score is the raw score capped at 10 (no lower cap); without a
    library override, BLOCKER (8) with a sensitive path (+3) and the
    security category (+4) has raw score 15 and scores exactly 10. *)
Theorem complexity_clamped (lib : Library) (i : Issue) :
  calculate_complexity lib i = Z.min (raw_complexity lib i) 10 /\
  calculate_complexity lib i <= 10 /\
  (raw_complexity lib i <= 10 -> calculate_complexity lib i = raw_complexity lib i) /\
  (severity i = "BLOCKER" -> in_sensitive_path i = true -> category i = "security" ->
   lib_lookup (pattern_key i) lib = None ->
   raw_complexity lib i = 15 /\ calculate_complexity lib i = 10).
Proof.
  unfold calculate_complexity. split; [reflexivity|]. split; [lia|]. split; [lia|].
  intros Hsev Hp Hcat Hl.
  rewrite raw_complexity_split. unfold library_score, adjustments.
  rewrite Hl, Hsev, Hp, Hcat. split; reflexivity.
Qed.

Example clamp_example :
  raw_complexity default_patterns
    (mkIssue "sonar-S2068-0" "sonarqube" "BLOCKER" "typescript:S2068"
             "src/app/api/auth/route.ts" 4 "hard-coded password" "security") = 15 /\
  calculate_complexity default_patterns
    (mkIssue "sonar-S2068-0" "sonarqube" "BLOCKER" "typescript:S2068"
             "src/app/api/auth/route.ts" 4 "hard-coded password" "security") = 10.
Proof. split; reflexivity. Qed.

(** ** The default pattern library *)

Fixpoint has_char (c : ascii) (s : string) : bool :=
  match s with
  | EmptyString => false
  | String d r => Ascii.eqb c d || has_char c r
  end.

Lemma has_char_append (c : ascii) (s t : string) :
  has_char c (s ++ t) = has_char c s || has_char c t.
Proof.
  induction s as [|d r IH]; simpl; [reflexivity|].
  rewrite IH. apply orb_assoc.
Qed.

Lemma has_char_substring (c : ascii) (n m : nat) (s : string) :
  has_char c (substring n m s) = true -> has_char c s = true.
Proof.
  revert m s. induction n as [|n IHn]; intros m s H.
  - revert s H. induction m as [|m IHm]; intros s H; destruct s as [|d r]; simpl in *;
      try discriminate.
    apply orb_true_iff in H as [H | H]; rewrite ?H; [reflexivity|].
    rewrite (IHm r H). apply orb_true_r.
  - destruct s as [|d r]; simpl in *; [discriminate|].
    rewrite (IHn m r H). apply orb_true_r.
Qed.

Lemma lower_char_not_S (c : ascii) : PyStr.lower_char c <> "S"%char.
Proof.
  destruct c as [[] [] [] [] [] [] [] []]; vm_compute; discriminate.
Qed.

Lemma lower_no_S (s : string) : has_char "S" (PyStr.lower s) = false.
Proof.
  induction s as [|c r IH]; [reflexivity|].
  cbn [PyStr.lower has_char]. rewrite IH, orb_false_r.
  destruct (Ascii.eqb "S" (PyStr.lower_char c)) eqn:E; [|reflexivity].
  apply Ascii.eqb_eq in E. symmetry in E. exfalso. exact (lower_char_not_S c E).
Qed.

Lemma replace_fuel_no_char (c : ascii) (fuel : nat) (old new s : string) :
  has_char c s = false -> has_char c new = false ->
  has_char c (PyStr.replace_fuel fuel old new s) = false.
Proof.
  revert s. induction fuel as [|f IH]; intros s Hs Hn; simpl; [exact Hs|].
  destruct s as [|d r]; [reflexivity|].
  destruct (PyStr.starts_with old (String d r)).
  - rewrite has_char_append, Hn, orb_false_l.
    apply IH; [|exact Hn].
    match goal with |- has_char c ?t = false => destruct (has_char c t) eqn:E end;
      [|reflexivity].
    apply has_char_substring in E. rewrite E in Hs. discriminate.
  - simpl in *. apply orb_false_iff in Hs as [Hd Hr].
    rewrite Hd. simpl. exact (IH r Hr Hn).
Qed.

(** The pattern key never contains an upper-case ['S']. *)
Lemma pattern_key_no_S (i : Issue) : has_char "S" (pattern_key i) = false.
Proof.
  unfold pattern_key, PyStr.replace.
  apply replace_fuel_no_char; [apply lower_no_S | reflexivity].
Qed.

(** C10 (as amended): under the default library the keys ["sonar-S3516"]
    and ["sonar-S128"] are never the pattern key of an issue (it has no
    upper-case ['S']); the override is taken exactly when the pattern key
    is ["typescript-missing-await"] (complexity 3), and otherwise the score
    is the severity base plus the adjustments, capped at 10. *)
Theorem default_library_sonar_keys_dead (i : Issue) :
  pattern_key i <> "sonar-S3516" /\ pattern_key i <> "sonar-S128" /\
  (pattern_key i <> "typescript-missing-await" ->
     library_score default_patterns i = severity_score (severity i) /\
     calculate_complexity default_patterns i
       = Z.min (severity_score (severity i) + adjustments i) 10) /\
  (pattern_key i = "typescript-missing-await" ->
     library_score default_patterns i = 3).
Proof.
  pose proof (pattern_key_no_S i) as HS.
  assert (H1 : pattern_key i <> "sonar-S3516")
    by (intro H; rewrite H in HS; discriminate).
  assert (H2 : pattern_key i <> "sonar-S128")
    by (intro H; rewrite H in HS; discriminate).
  split; [exact H1|]. split; [exact H2|]. split.
  - intros H3.
    assert (Hl : library_score default_patterns i = severity_score (severity i)).
    { unfold library_score, default_patterns. cbn [lib_lookup].
      apply String.eqb_neq in H1, H2, H3. rewrite H1, H2, H3. reflexivity. }
    split; [exact Hl|].
    unfold calculate_complexity. rewrite raw_complexity_split, Hl. reflexivity.
  - intros H3. unfold library_score. rewrite H3. reflexivity.
Qed.

(** A SonarQube record whose rule is ["tsmissing-await"]. *)
Definition sonar_missing_await : json :=
  JObj [("rule", JStr "tsmissing-await"); ("component", JStr "src/lib/x.ts");
        ("line", JNum 3); ("severity", JStr "BLOCKER"); ("message", JStr "m")].

(** C10 as first stated fails: a SonarQube-sourced issue takes the
    override branch of the default library and scores 3, not its base 8. *)
Lemma default_library_override_taken :
  exists p i, sonar_std_item (fun _ => "0a1b2c3d") sonar_missing_await = Ok p /\
    typed_issue p = Some i /\
    source i = "sonarqube" /\
    lib_lookup (pattern_key i) default_patterns <> None /\
    Z.min (severity_score (severity i) + adjustments i) 10 = 8 /\
    calculate_complexity default_patterns i = 3.
Proof.
  do 2 eexists. split; [reflexivity|]. split; [reflexivity|].
  split; [reflexivity|]. split; [discriminate|]. split; reflexivity.
Qed.

(** ** Ingestion *)

Ltac inv_bind H :=
  repeat match type of H with
  | context [match ?m with Ok _ => _ | Raise _ => _ end] =>
      let E := fresh "E" in destruct m eqn:E; try discriminate H
  end.

Lemma mapM_Forall2 {A B} (f : A -> result B) (l : list A) (l' : list B) :
  mapM f l = Ok l' -> Forall2 (fun a b => f a = Ok b) l l'.
Proof.
  revert l'. induction l as [|a rest IH]; intros l' H; simpl in H.
  - injection H as <-. constructor.
  - unfold bind in H. inv_bind H. injection H as <-.
    constructor; [assumption | apply IH; reflexivity].
Qed.

(** The compiler line of scenario C. *)
Definition ts2307_line : string :=
  "foo.ts(12,3): error TS2307: Cannot find module 'x'".

(** C4 (as amended): the line yields one issue with file ["foo.ts"], line
    12, rule ["TS2307"], severity MINOR (2307 is not in the MAJOR set of
    [map_ts_severity]) and category imports; under the default library it
    scores 2 and is routed to a SPEED job with pattern
    ["pattern-import-fixes"], BASIC verification and 5 minutes. *)
Theorem ts2307_routes_speed (md5 : string -> string) (similar : list string)
    (now : string) :
  exists i, ingest_typescript md5 (TLines [ts2307_line]) = Ok [i] /\
    file_path i = "foo.ts" /\ line i = 12 /\ rule_id i = "TS2307" /\
    message i = "Cannot find module 'x'" /\
    severity i = "MINOR" /\ category i = "imports" /\
    calculate_complexity default_patterns i = 2 /\
    job_type (route_issue default_patterns false similar now i) = "SPEED" /\
    verification_level (route_issue default_patterns false similar now i) = "BASIC" /\
    estimated_minutes (route_issue default_patterns false similar now i) = 5 /\
    pattern (route_issue default_patterns false similar now i)
      = Some "pattern-import-fixes".
Proof.
  eexists. split; [reflexivity|]. repeat split.
Qed.

(** C4 as first stated fails: the issue is not MAJOR, does not score 4 and
    is not routed to a DEEP job of 12 minutes. *)
Lemma ts2307_not_major_deep :
  exists i, ingest_typescript (fun _ => "0a1b2c3d") (TLines [ts2307_line]) = Ok [i] /\
    severity i <> "MAJOR" /\
    calculate_complexity default_patterns i <> 4 /\
    job_type (route_issue default_patterns false [] "t" i) <> "DEEP" /\
    estimated_minutes (route_issue default_patterns false [] "t" i) <> 12.
Proof.
  eexists. split; [reflexivity|]. repeat split; discriminate.
Qed.


Lemma any_in_py_str (frags : list string) (s : string) :
  any_in_py frags (JStr s) = Ok (any_in frags s).
Proof.
  induction frags as [|r rest IH]; [reflexivity|].
  cbn [any_in_py py_in bind]. unfold any_in. cbn [existsb].
  destruct (PyStr.contains r s); [reflexivity|exact IH].
Qed.

Lemma categorize_sonar_rule_py_str (s : string) :
  categorize_sonar_rule_py (JStr s) = Ok (categorize_sonar_rule s).
Proof.
  unfold categorize_sonar_rule_py, categorize_sonar_rule.
  rewrite !any_in_py_str. unfold bind.
  destruct (any_in _ s); [reflexivity|]. destruct (any_in _ s); [reflexivity|].
  destruct (any_in _ s); reflexivity.
Qed.









(** On a standard report, [ingest_sonarqube] is [mapM] of the record
    function over the flat list. *)
Lemma ingest_sonarqube_std (md5 : string -> string) (kv : list (string * json))
    (items : list json) :
  dget kv "error_categories" = None ->
  py_iter (dget_or kv "issues" (JArr [])) = Ok items ->
  ingest_sonarqube md5 (Doc (JObj kv)) = mapM (sonar_std_item md5) items.
Proof.
  intros H1 H2. unfold ingest_sonarqube, sonar_doc, py_in. cbn [json_load].
  rewrite H1. unfold bind. rewrite H2. reflexivity.
Qed.

(** What [parse_sonarqube_results] writes for one record: the operands
    of the path chain below [output_dir], and the file's contents. *)
Definition written_ok (w : ParseSonar.Written) : Prop :=
  fst w = ["BY-SEVERITY"; ParseSonar.eo_severity (snd w); ParseSonar.eo_id (snd w) ++ ".json"] /\
  ParseSonar.eo_file (snd w) <> EmptyString /\
  ParseSonar.eo_rollback_instructions (snd w) = "git checkout -- " ++ ParseSonar.eo_file (snd w).

Lemma parse_record_written (idx : Z) (item : json) (w : ParseSonar.Written) :
  ParseSonar.parse_record idx item = Ok (Some w) ->
  ParseSonar.eo_id (snd w) = "SQ-" ++ PyStr.pad5 idx /\ written_ok w.
Proof.
  unfold ParseSonar.parse_record, bind. destruct item; try discriminate.
  intros H. cbv beta zeta in H. inv_bind H;
    destruct (String.eqb _ EmptyString) eqn:Ef; try discriminate H.
  injection H as <-. unfold written_ok. simpl.
  repeat split; auto.
  intros Hf. rewrite Hf in Ef. discriminate.
Qed.




(** A standard report with one record without severity and one with
    severity ["critical"]. *)
Definition std_report : list (string * json) :=
  [("issues", JArr [
      JObj [("rule", JStr "typescript:S1481"); ("component", JStr "WedSync:src/a.ts");
            ("line", JNum 4); ("message", JStr "unused")];
      JObj [("rule", JStr "typescript:S4502"); ("component", JStr "WedSync:src/api/pay.ts");
            ("line", JNum 10); ("severity", JStr "critical");
            ("message", JStr "missing auth check")]])].

Definition std_items : list json :=
  match dget_or std_report "issues" (JArr []) with JArr l => l | _ => [] end.





(** ** A run over several reports *)

(** A valid standard report with one issue. *)
Definition one_issue_report : json := JObj [("issues", JArr [
  JObj [("rule", JStr "typescript:S3516"); ("component", JStr "src/lib/b.ts");
        ("line", JNum 8); ("severity", JStr "MINOR"); ("message", JStr "returns")]])].

Lemma ingest_all_skip_report (md5 : string -> string) (r : report) (rest : list report) :
  ingest_report md5 r = Ok [] -> ingest_all md5 (r :: rest) = ingest_all md5 rest.
Proof.
  intros H. simpl. rewrite H. simpl. destruct (ingest_all md5 rest); reflexivity.
Qed.

(** C6: a malformed or undecodable SonarQube report adds no issue and the
    run goes on; the same report given to the CodeRabbit or the TypeScript
    entry point raises out of the run, and the valid reports around it
    contribute nothing (the last case is the order of [main]'s options
    [--ingest-sonarqube], [--ingest-coderabbit], [--ingest-typescript]). *)
Theorem malformed_report_aborts_run (md5 : string -> string) :
  (forall rest, ingest_all md5 (SonarReport Malformed :: rest) = ingest_all md5 rest /\
                ingest_all md5 (SonarReport Undecodable :: rest) = ingest_all md5 rest) /\
  (exists l, ingest_all md5 [SonarReport (Doc one_issue_report)] = Ok l /\ length l = 1%nat) /\
  ingest_all md5 [CodeRabbitReport Malformed; SonarReport (Doc one_issue_report)]
    = Raise JSONDecodeError /\
  ingest_all md5 [CodeRabbitReport Undecodable; SonarReport (Doc one_issue_report)]
    = Raise UnicodeDecodeError /\
  ingest_all md5 [TypeScriptReport TUndecodable; SonarReport (Doc one_issue_report)]
    = Raise UnicodeDecodeError /\
  ingest_all md5 [SonarReport (Doc one_issue_report); CodeRabbitReport Malformed;
                  TypeScriptReport (TLines [ts2307_line])]
    = Raise JSONDecodeError.
Proof.
  split; [intros rest; split; apply ingest_all_skip_report; reflexivity|].
  split; [eexists; split; reflexivity|].
  repeat split.
Qed.

(** ** Determinism *)

Definition issue_tuple (p : PyIssue) : json * json * json * string :=
  (py_file_path p, py_line p, py_rule_id p, py_severity p).

(** The tuple and the id of an issue. *)
Definition issue_view (p : PyIssue) : (json * json * json * string) * json :=
  (issue_tuple p, py_id p).

Definition result_map {A B} (f : A -> B) (r : result A) : result B :=
  match r with Ok a => Ok (f a) | Raise e => Raise e end.

(** The record fields that the tuple and the id are made of. *)
Definition sonar_key_fields : list string := ["rule"; "component"; "line"; "severity"].

(** Two records that agree on those fields (two non-dicts agree). *)
Definition same_key_fields (a b : json) : Prop :=
  match a, b with
  | JObj kv1, JObj kv2 => forall k, In k sonar_key_fields -> dget kv1 k = dget kv2 k
  | JObj _, _ | _, JObj _ => False
  | _, _ => True
  end.

Lemma sonar_std_item_view (md5 : string -> string) (a b : json) :
  same_key_fields a b ->
  result_map issue_view (sonar_std_item md5 a) = result_map issue_view (sonar_std_item md5 b).
Proof.
  intros H. destruct a as [| | | | |kv1], b as [| | | | |kv2]; simpl in H;
    try contradiction; try reflexivity.
  assert (Hr := H "rule" ltac:(simpl; tauto)).
  assert (Hc := H "component" ltac:(simpl; tauto)).
  assert (Hl := H "line" ltac:(simpl; tauto)).
  assert (Hs := H "severity" ltac:(simpl; tauto)).
  unfold sonar_std_item, dget_or. cbv zeta. rewrite Hr, Hc, Hl, Hs. unfold bind.
  destruct (str_method _); [|reflexivity].
  destruct (categorize_sonar_rule_py _); reflexivity.
Qed.

Lemma mapM_result_map {A B C} (f : A -> result B) (g : B -> C) (R : A -> A -> Prop)
    (l1 l2 : list A) :
  (forall a b, R a b -> result_map g (f a) = result_map g (f b)) ->
  Forall2 R l1 l2 ->
  result_map (map g) (mapM f l1) = result_map (map g) (mapM f l2).
Proof.
  intros Hf H. induction H as [|a b l1 l2 Hab _ IH]; [reflexivity|].
  simpl. specialize (Hf a b Hab). unfold bind.
  destruct (f a) as [x|e], (f b) as [y|e']; simpl in Hf; try discriminate Hf.
  - injection Hf as Hxy.
    destruct (mapM f l1), (mapM f l2); simpl in IH; try discriminate IH; simpl.
    + injection IH as Hm. rewrite Hxy, Hm. reflexivity.
    + exact IH.
  - injection Hf as ->. reflexivity.
Qed.

(** C9: the score is a function of severity, rule id, path and category
    (so two calls on one issue agree); the id of a standard SonarQube
    record is the hash expression of its [rule], [component] and [line];
    and two standard reports whose flat lists agree record by record on
    [rule], [component], [line] and [severity] (in particular the same
    report ingested twice) give the same outcome: the same exception, or
    issues with the same tuples [(file_path, line, rule_id, severity)] and
    the same ids, in the same order. *)
Theorem scoring_and_ingestion_deterministic (md5 : string -> string) (lib : Library) :
  (forall i1 i2, severity i1 = severity i2 -> rule_id i1 = rule_id i2 ->
     file_path i1 = file_path i2 -> category i1 = category i2 ->
     calculate_complexity lib i1 = calculate_complexity lib i2) /\
  (forall kv p, sonar_std_item md5 (JObj kv) = Ok p ->
     py_id p = JStr ("sonar-" ++ py_str (dget kv "rule") ++ "-" ++
                     md5 (py_str (dget kv "component") ++ py_str (dget kv "line")))) /\
  (forall kv1 kv2 items1 items2,
     dget kv1 "error_categories" = None -> dget kv2 "error_categories" = None ->
     py_iter (dget_or kv1 "issues" (JArr [])) = Ok items1 ->
     py_iter (dget_or kv2 "issues" (JArr [])) = Ok items2 ->
     Forall2 same_key_fields items1 items2 ->
     result_map (map issue_view) (ingest_sonarqube md5 (Doc (JObj kv1)))
     = result_map (map issue_view) (ingest_sonarqube md5 (Doc (JObj kv2)))).
Proof.
  split; [|split].
  - intros i1 i2 Hs Hr Hf Hc.
    assert (Hk : pattern_key i1 = pattern_key i2) by (unfold pattern_key; rewrite Hr; reflexivity).
    assert (Hp : in_sensitive_path i1 = in_sensitive_path i2)
      by (unfold in_sensitive_path; rewrite Hf; reflexivity).
    unfold calculate_complexity. rewrite !raw_complexity_split.
    unfold library_score, adjustments. rewrite Hs, Hk, Hp, Hc. reflexivity.
  - intros kv p H.
    unfold sonar_std_item, bind in H. cbv zeta in H. inv_bind H.
    injection H as <-. reflexivity.
  - intros kv1 kv2 items1 items2 Hs1 Hs2 Hi1 Hi2 H.
    rewrite (ingest_sonarqube_std md5 kv1 items1 Hs1 Hi1),
            (ingest_sonarqube_std md5 kv2 items2 Hs2 Hi2).
    apply (mapM_result_map _ _ same_key_fields); [|exact H].
    apply sonar_std_item_view.
Qed.

(** [std_report] with other messages and an extra field. *)
Definition std_report_reworded : list (string * json) :=
  [("issues", JArr [
      JObj [("rule", JStr "typescript:S1481"); ("component", JStr "WedSync:src/a.ts");
            ("line", JNum 4); ("message", JStr "unused local variable")];
      JObj [("rule", JStr "typescript:S4502"); ("component", JStr "WedSync:src/api/pay.ts");
            ("line", JNum 10); ("severity", JStr "critical");
            ("message", JStr "add an auth check"); ("effort", JStr "10min")]])].

Definition std_items_reworded : list json :=
  match dget_or std_report_reworded "issues" (JArr []) with JArr l => l | _ => [] end.

Lemma scoring_and_ingestion_deterministic_witness :
  ingest_sonarqube (fun _ => "0a1b2c3d") (Doc (JObj std_report))
    <> ingest_sonarqube (fun _ => "0a1b2c3d") (Doc (JObj std_report_reworded)) /\
  result_map (map issue_view) (ingest_sonarqube (fun _ => "0a1b2c3d") (Doc (JObj std_report)))
  = result_map (map issue_view)
      (ingest_sonarqube (fun _ => "0a1b2c3d") (Doc (JObj std_report_reworded))).
Proof.
  split; [vm_compute; discriminate|].
  apply (proj2 (proj2 (scoring_and_ingestion_deterministic (fun _ => "0a1b2c3d") default_patterns))
           std_report std_report_reworded std_items std_items_reworded eq_refl eq_refl eq_refl eq_refl).
  repeat constructor; intros k Hk; simpl in Hk;
    repeat (destruct Hk as [<-|Hk]; [reflexivity|]); contradiction.
Defined.

(** * Further properties of the ingestion helpers and of the run *)

(** ** Membership in string lists *)

Lemma In_str_mem (x : string) (l : list string) : In x l <-> str_mem x l = true.
Proof.
  unfold str_mem. rewrite existsb_exists. split.
  - intros H. exists x. rewrite String.eqb_refl. auto.
  - intros [y [Hy Heq]]. apply String.eqb_eq in Heq. subst y. exact Hy.
Qed.

Lemma str_mem_app (x : string) (a b : list string) :
  str_mem x (a +++ b) = (str_mem x a || str_mem x b)%bool.
Proof. unfold str_mem. apply existsb_app. Qed.

Lemma str_mem_if_nil (x : string) (b : bool) (l : list string) :
  str_mem x l = false -> str_mem x (if b then l else []) = false.
Proof. destruct b; auto. Qed.

Ltac destruct_contains :=
  repeat match goal with
  | |- context [PyStr.contains ?a ?b] => destruct (PyStr.contains a b)
  end.

(** ** [parse-sonarqube.py] helpers *)

(** X1: a rule whose lower-cased name contains [type] (every
    [typescript:...] rule) is classified among the first four categories:
    never SECURITY, UNUSED-CODE, DUPLICATION or GENERAL, whatever the
    message. *)
Theorem classify_category_type_rule (rule msg : string) :
  PyStr.contains "type" (PyStr.lower rule) = true ->
  In (ParseSonar.classify_category rule msg)
     ["ASYNC-AWAIT"; "DEPRECATED-API"; "COMPLEXITY"; "TYPE-ERRORS"].
Proof.
  intros H. unfold ParseSonar.classify_category. cbv zeta.
  rewrite H, orb_true_r. cbn [orb].
  destruct (_ || _)%bool; [simpl; tauto|].
  destruct (_ || _)%bool; [simpl; tauto|].
  destruct (_ || _)%bool; simpl; tauto.
Qed.

Lemma classify_category_type_rule_witness :
  PyStr.contains "type" (PyStr.lower "typescript:S1128") = true /\
  In (ParseSonar.classify_category "typescript:S1128" "Remove this unused import")
     ["ASYNC-AWAIT"; "DEPRECATED-API"; "COMPLEXITY"; "TYPE-ERRORS"].
Proof.
  split; [vm_compute; reflexivity|].
  apply classify_category_type_rule. vm_compute. reflexivity.
Defined.

(** X2: [select_agents] returns no agent twice; the security compliance
    officer is selected exactly for a BLOCKER or CRITICAL severity or a
    rule mentioning security, auth or S5659; the production guardian
    exactly for a BLOCKER or CRITICAL severity. *)
Theorem select_agents_spec (sev rule : string) :
  NoDup (ParseSonar.select_agents sev rule) /\
  (In "security-compliance-officer" (ParseSonar.select_agents sev rule) <->
   (str_mem sev ["BLOCKER"; "CRITICAL"] = true \/
    PyStr.contains "security" (PyStr.lower rule) = true \/
    PyStr.contains "auth" (PyStr.lower rule) = true \/
    PyStr.contains "S5659" rule = true)) /\
  (In "production-guardian" (ParseSonar.select_agents sev rule) <->
   str_mem sev ["BLOCKER"; "CRITICAL"] = true).
Proof.
  split; [apply NoDup_nodup|].
  unfold ParseSonar.select_agents. rewrite !nodup_In, !In_str_mem.
  unfold ParseSonar.agents_before_dedup. cbv zeta.
  destruct (str_mem sev _); [|destruct (String.eqb sev "MAJOR"); [|destruct (String.eqb sev "MINOR")]];
    destruct_contains; vm_compute; intuition discriminate.
Qed.

(** X3: the agents that [select_agents] picks include the production
    guardian exactly when [generate_verification_requirements] asks for
    its approval. *)
Theorem guardian_agent_iff_approval (sev rule : string) :
  In "production-guardian" (ParseSonar.select_agents sev rule) <->
  In "Production guardian approval required"
     (ParseSonar.generate_verification_requirements sev rule).
Proof.
  unfold ParseSonar.select_agents. rewrite nodup_In, !In_str_mem.
  unfold ParseSonar.agents_before_dedup, ParseSonar.generate_verification_requirements.
  cbv zeta.
  destruct (str_mem sev _); [|destruct (String.eqb sev "MAJOR"); [|destruct (String.eqb sev "MINOR")]];
    destruct_contains; vm_compute; intuition discriminate.
Qed.

(** X4: [identify_connected_features] returns no feature twice, and
    returns [general] exactly when no keyword of the path matches, in
    which case [general] is the only feature. *)
Theorem connected_features_general (p : string) :
  NoDup (ParseSonar.identify_connected_features p) /\
  (In "general" (ParseSonar.identify_connected_features p) <->
   ParseSonar.features_before_dedup p = []) /\
  (ParseSonar.features_before_dedup p = [] ->
   ParseSonar.identify_connected_features p = ["general"]).
Proof.
  assert (Hg : str_mem "general" (ParseSonar.features_before_dedup p) = false).
  { unfold ParseSonar.features_before_dedup. cbv zeta.
    rewrite !str_mem_app, !str_mem_if_nil by reflexivity. reflexivity. }
  unfold ParseSonar.identify_connected_features.
  destruct (ParseSonar.features_before_dedup p) as [|f fs] eqn:E.
  - split; [constructor; [simpl; tauto|constructor]|].
    split; [split; auto; intros; simpl; auto|auto].
  - split; [apply NoDup_nodup|]. split; [|discriminate].
    rewrite nodup_In, In_str_mem, Hg. split; discriminate.
Qed.

(** X5: [assess_business_impact] rates an issue HIGH exactly when its path
    mentions payment, billing, auth, security, timeline or schedule (in any
    case) or its severity is BLOCKER or CRITICAL. *)
Theorem business_impact_high (sev p : string) :
  PyStr.starts_with "HIGH" (ParseSonar.assess_business_impact sev p) = true <->
  (any_in ["payment"; "billing"; "auth"; "security"; "timeline"; "schedule"]
          (PyStr.lower p) = true \/
   str_mem sev ["BLOCKER"; "CRITICAL"] = true).
Proof.
  unfold ParseSonar.assess_business_impact, any_in. cbv zeta. cbn [existsb].
  destruct (str_mem sev _); [|destruct (String.eqb sev "MAJOR")];
    destruct_contains; vm_compute; intuition discriminate.
Qed.

(** ** Severity and category tables of the orchestrator *)

(** X7: the TypeScript codes that [map_ts_severity] rates MAJOR are all
    type errors for [categorize_ts_error], and those rated CRITICAL are all
    syntax errors. *)
Theorem ts_severity_category_consistent (c : string) :
  (map_ts_severity c = "MAJOR" -> categorize_ts_error c = "types") /\
  (map_ts_severity c = "CRITICAL" -> categorize_ts_error c = "syntax").
Proof.
  unfold map_ts_severity, categorize_ts_error, str_mem. cbn [existsb].
  repeat match goal with
  | |- context [String.eqb c ?s] => destruct (String.eqb_spec c s) as [->|?]
  end; vm_compute; split; intros; (reflexivity || discriminate).
Qed.

(** ** [parse_sonarqube_results] *)

(** [sum(stats.values())] *)
Definition stats_total (st : list (string * Z)) : Z :=
  fold_right (fun kv acc => snd kv + acc) 0 st.

Definition sq_keys : list string := ["BLOCKER"; "CRITICAL"; "MAJOR"; "MINOR"; "INFO"].

Lemma bump_keys (k : string) (st : list (string * Z)) :
  map fst (ParseSonar.bump k st) = map fst st.
Proof.
  induction st as [|[k' n] rest IH]; simpl; [reflexivity|].
  destruct (String.eqb k k'); simpl; [reflexivity|]. rewrite IH. reflexivity.
Qed.

Lemma bump_total (k : string) (st : list (string * Z)) :
  stats_total (ParseSonar.bump k st)
  = stats_total st + (if str_mem k (map fst st) then 1 else 0).
Proof.
  induction st as [|[k' n] rest IH]; simpl; [reflexivity|].
  unfold str_mem in *. simpl.
  destruct (String.eqb k k'); simpl; [lia|]. rewrite IH.
  destruct (existsb _ _); lia.
Qed.

Lemma parse_loop_spec (items : list json) : forall idx st ws st',
  ParseSonar.parse_loop idx items st = Ok (ws, st') ->
  map fst st' = map fst st /\
  stats_total st' = stats_total st +
    Z.of_nat (length (filter (fun w => str_mem (ParseSonar.eo_severity (snd w)) (map fst st)) ws)) /\
  (exists ks, map (fun w => ParseSonar.eo_id (snd w)) ws = map (fun k => "SQ-" ++ PyStr.pad5 k) ks /\
     StronglySorted Z.lt ks /\ Forall (fun k => idx <= k < idx + Z.of_nat (length items)) ks) /\
  Forall written_ok ws.
Proof.
  induction items as [|item rest IH]; intros idx st ws st' H; simpl in H.
  - injection H as <- <-. split; [reflexivity|]. split; [simpl; lia|].
    split; [exists []; repeat constructor|constructor].
  - destruct (ParseSonar.parse_record idx item) as [[w|]|e] eqn:Er; simpl in H; try discriminate.
    + destruct (ParseSonar.parse_loop (idx + 1) rest (ParseSonar.bump (ParseSonar.eo_severity (snd w)) st))
        as [[ws1 st1]|e] eqn:El; simpl in H; [|discriminate].
      injection H as <- <-.
      apply IH in El as (Hk & Ht & (ks & Hks & Hs & Hb) & Hw).
      apply parse_record_written in Er as [Hid Hok].
      rewrite bump_keys in Hk, Ht. rewrite bump_total in Ht.
      split; [exact Hk|]. split.
      { simpl. rewrite Ht. destruct (str_mem _ _); simpl length; lia. }
      split; [|constructor; assumption].
      exists (idx :: ks). split; [simpl; rewrite Hks, Hid; reflexivity|].
      split.
      * constructor; [exact Hs|]. eapply Forall_impl; [|exact Hb]. simpl. lia.
      * constructor; [simpl length; lia|]. eapply Forall_impl; [|exact Hb]. simpl. lia.
    + apply IH in H as (Hk & Ht & (ks & Hks & Hs & Hb) & Hw).
      split; [exact Hk|]. split; [exact Ht|]. split; [|exact Hw].
      exists ks. split; [exact Hks|]. split; [exact Hs|].
      eapply Forall_impl; [|exact Hb]. simpl. lia.
Qed.

Lemma parse_results_loop (f : json_file) ws st :
  ParseSonar.parse_sonarqube_results (Some f) = Ok (Some (ws, st)) ->
  exists items, ParseSonar.parse_loop 0 items ParseSonar.stats0 = Ok (ws, st).
Proof.
  unfold ParseSonar.parse_sonarqube_results, bind. intros H. inv_bind H;
    destruct (Nat.eqb _ 0); try discriminate H.
  injection H as ->. eauto.
Qed.

(** A report in the flat-array layout: a BLOCKER record (lower case in the
    file), a record whose component is only the project prefix, and a
    record with a severity outside the five counted ones. *)
Definition sample_array : json := JArr [
  JObj [("severity", JStr "blocker"); ("component", JStr "WedSync:src/app/api/pay.ts");
        ("rule", JStr "typescript:S1128"); ("message", JStr "Remove this unused import")];
  JObj [("component", JStr "WedSync:"); ("rule", JStr "typescript:S117")];
  JObj [("severity", JStr "high"); ("component", JStr "src/lib/x.ts")]].

(** X8: the statistics returned by [parse_sonarqube_results] keep their
    five keys, and their total (the printed TOTAL) is the number of written
    files whose severity is one of BLOCKER, CRITICAL, MAJOR, MINOR, INFO:
    a file written under any other severity is not counted. *)
Theorem parse_sonarqube_stats_total (f : json_file) ws st :
  ParseSonar.parse_sonarqube_results (Some f) = Ok (Some (ws, st)) ->
  map fst st = sq_keys /\
  stats_total st =
    Z.of_nat (length (filter (fun w => str_mem (ParseSonar.eo_severity (snd w)) sq_keys) ws)).
Proof.
  intros H. apply parse_results_loop in H as [items H].
  apply parse_loop_spec in H as (Hk & Ht & _). split; [exact Hk|].
  rewrite Ht. reflexivity.
Qed.

Lemma parse_sonarqube_stats_total_witness :
  exists ws st,
    ParseSonar.parse_sonarqube_results (Some (Doc sample_array)) = Ok (Some (ws, st)) /\
    length ws = 2%nat /\ stats_total st = 1 /\
    map fst st = sq_keys /\
    stats_total st =
      Z.of_nat (length (filter (fun w => str_mem (ParseSonar.eo_severity (snd w)) sq_keys) ws)).
Proof.
  destruct (ParseSonar.parse_sonarqube_results (Some (Doc sample_array)))
    as [[[ws st]|]|e] eqn:E;
    pose proof E as E'; vm_compute in E'; try discriminate E'.
  injection E' as Hws Hst. exists ws, st.
  split; [reflexivity|]. split; [subst ws; reflexivity|]. split; [subst st; reflexivity|].
  apply (parse_sonarqube_stats_total (Doc sample_array)). exact E.
Defined.









(** ** CodeRabbit reports through the router *)

Lemma map_coderabbit_severity_range (s : string) :
  In (map_coderabbit_severity s) ["CRITICAL"; "MAJOR"; "MINOR"; "INFO"].
Proof.
  unfold map_coderabbit_severity. cbv zeta.
  repeat match goal with |- context [String.eqb ?a ?b] => destruct (String.eqb a b) end;
    simpl; tauto.
Qed.

Lemma coderabbit_item_shape (md5 : string -> string) (item : json) (p : PyIssue) :
  coderabbit_item md5 item = Ok p ->
  py_source p = "coderabbit" /\ py_category p = "refactor" /\
  (exists x, py_rule_id p = JStr ("CR-" ++ x)) /\
  In (py_severity p) ["CRITICAL"; "MAJOR"; "MINOR"; "INFO"].
Proof.
  intros H. destruct item as [| | | | |kv]; try discriminate H.
  unfold coderabbit_item, bind in H. cbv beta zeta in H. inv_bind H.
  injection H as <-. simpl. split; [reflexivity|]. split; [reflexivity|].
  split; [eexists; reflexivity|]. apply map_coderabbit_severity_range.
Qed.

Lemma typed_issue_fields (p : PyIssue) (i : Issue) :
  typed_issue p = Some i ->
  source i = py_source p /\ severity i = py_severity p /\ category i = py_category p /\
  py_rule_id p = JStr (rule_id i) /\ py_file_path p = JStr (file_path i).
Proof.
  unfold typed_issue.
  destruct (py_id p), (py_rule_id p), (py_file_path p), (py_line p), (py_message p);
    intros H; try discriminate H.
  injection H as <-. repeat split; reflexivity.
Qed.

(** A pattern key made from a [CR-] rule id starts with [cr-], which no
    key of the default library does. *)
Lemma cr_key_not_in_default (i : Issue) (x : string) :
  rule_id i = "CR-" ++ x -> lib_lookup (pattern_key i) default_patterns = None.
Proof. intros H. unfold pattern_key. rewrite H. reflexivity. Qed.

Lemma coderabbit_issue_routing (i : Issue) (similar : list string) (now : string) :
  category i = "refactor" ->
  lib_lookup (pattern_key i) default_patterns = None ->
  In (severity i) ["CRITICAL"; "MAJOR"; "MINOR"; "INFO"] ->
  In (job_type (route_issue default_patterns false similar now i)) ["SPEED"; "DEEP"] /\
  (job_type (route_issue default_patterns false similar now i) = "DEEP" <->
   (severity i = "CRITICAL" \/ severity i = "MAJOR" \/ in_sensitive_path i = true)).
Proof.
  intros Hc Hl Hs.
  assert (Hcc : calculate_complexity default_patterns i
                = Z.min (severity_score (severity i) + (if in_sensitive_path i then 3 else 0)) 10).
  { unfold calculate_complexity. rewrite raw_complexity_split.
    unfold library_score, adjustments. rewrite Hl, Hc.
    destruct (in_sensitive_path i); reflexivity. }
  unfold route_issue. cbv zeta. rewrite Hcc.
  destruct Hs as [H|[H|[H|[H|[]]]]]; rewrite <- H;
    destruct (in_sensitive_path i); simpl; intuition discriminate.
Qed.

(** X13: every issue of a CodeRabbit report has source coderabbit,
    category refactor, a rule id [CR-...] and one of the severities
    CRITICAL, MAJOR, MINOR, INFO.  Under the default library, an issue
    whose fields have their annotated types is, when not already resolved,
    routed to a SPEED or a DEEP job, and to a DEEP job exactly when it is
    CRITICAL or MAJOR or its path is sensitive (its [CR-] rule never hits
    the library). *)
Theorem coderabbit_routing (md5 : string -> string) (f : json_file) (issues : list PyIssue)
    (similar : list string) (now : string) :
  ingest_coderabbit md5 f = Ok issues ->
  Forall (fun p =>
    py_source p = "coderabbit" /\ py_category p = "refactor" /\
    (exists x, py_rule_id p = JStr ("CR-" ++ x)) /\
    In (py_severity p) ["CRITICAL"; "MAJOR"; "MINOR"; "INFO"] /\
    forall i, typed_issue p = Some i ->
      In (job_type (route_issue default_patterns false similar now i)) ["SPEED"; "DEEP"] /\
      (job_type (route_issue default_patterns false similar now i) = "DEEP" <->
       (severity i = "CRITICAL" \/ severity i = "MAJOR" \/ in_sensitive_path i = true))) issues.
Proof.
  unfold ingest_coderabbit, bind. intros H. inv_bind H.
  apply mapM_Forall2 in H. clear E0.
  induction H as [|item p items ps Hp _ IH]; [apply Forall_nil|apply Forall_cons; [|exact IH]].
  apply coderabbit_item_shape in Hp as (Hsrc & Hcat & [x Hr] & Hsev).
  split; [exact Hsrc|]. split; [exact Hcat|]. split; [exists x; exact Hr|].
  split; [exact Hsev|].
  intros i Hi. apply typed_issue_fields in Hi as (_ & Hs & Hc & Hr' & _).
  assert (Hri : rule_id i = "CR-" ++ x) by congruence.
  apply coderabbit_issue_routing.
  - rewrite Hc. exact Hcat.
  - exact (cr_key_not_in_default i x Hri).
  - rewrite Hs. exact Hsev.
Qed.

Definition sample_coderabbit : json := JArr [
  JObj [("pr", JNum 12); ("file", JStr "src/app/api/invoices.ts"); ("line", JNum 3);
        ("severity", JStr "Minor"); ("summary", JStr "rename variable")];
  JObj [("pr", JNum 12); ("file", JStr "src/lib/format.ts"); ("line", JNum 9);
        ("severity", JStr "style"); ("summary", JStr "spacing")]].

Lemma coderabbit_routing_witness :
  exists issues, ingest_coderabbit (fun s => s) (Doc sample_coderabbit) = Ok issues /\
    map (fun p => option_map (fun i => job_type (route_issue default_patterns false [] "t" i))
                             (typed_issue p)) issues
      = [Some "DEEP"; Some "SPEED"] /\
    Forall (fun p =>
      py_source p = "coderabbit" /\ py_category p = "refactor" /\
      (exists x, py_rule_id p = JStr ("CR-" ++ x)) /\
      In (py_severity p) ["CRITICAL"; "MAJOR"; "MINOR"; "INFO"] /\
      forall i, typed_issue p = Some i ->
        In (job_type (route_issue default_patterns false [] "t" i)) ["SPEED"; "DEEP"] /\
        (job_type (route_issue default_patterns false [] "t" i) = "DEEP" <->
         (severity i = "CRITICAL" \/ severity i = "MAJOR" \/ in_sensitive_path i = true))) issues.
Proof.
  destruct (ingest_coderabbit (fun s => s) (Doc sample_coderabbit)) as [issues|e] eqn:E;
    pose proof E as E'; vm_compute in E'; try discriminate E'.
  injection E' as Hi. exists issues. split; [reflexivity|]. split; [subst issues; reflexivity|].
  apply (coderabbit_routing (fun s => s) (Doc sample_coderabbit) issues [] "t"). exact E.
Defined.

(** ** TypeScript compiler output *)

Lemma map_ts_severity_range (c : string) :
  In (map_ts_severity c) ["CRITICAL"; "MAJOR"; "MINOR"].
Proof.
  unfold map_ts_severity.
  destruct (str_mem c _); [|destruct (str_mem c _)]; simpl; tauto.
Qed.

Lemma categorize_ts_error_range (c : string) :
  In (categorize_ts_error c) ["types"; "async"; "imports"; "syntax"].
Proof.
  unfold categorize_ts_error.
  destruct (str_mem c _); [|destruct (str_mem c _); [|destruct (str_mem c _)]]; simpl; tauto.
Qed.

(** An issue built from one compiler line. *)
Definition ts_issue_ok (i : Issue) : Prop :=
  source i = "typescript" /\
  exists code, rule_id i = "TS" ++ code /\ severity i = map_ts_severity code /\
    category i = categorize_ts_error code.

Lemma ts_line_shape (md5 : string -> string) (l : string) (i : Issue) :
  ts_line md5 l = Ok (Some i) -> PyStr.contains "error TS" l = true /\ ts_issue_ok i.
Proof.
  unfold ts_line. destruct (PyStr.contains "error TS" l) eqn:Hc; [|discriminate].
  destruct (PyStr.split _ _) as [|fi [|ei rest]]; try discriminate.
  unfold bind. cbv zeta. intros H. inv_bind H. injection H as <-.
  split; [reflexivity|]. split; [reflexivity|]. eexists. split; [reflexivity|]. split; reflexivity.
Qed.

Lemma ts_lines_shape (md5 : string -> string) (ls : list string) : forall is,
  ts_lines md5 ls = Ok is ->
  (length is <= length (filter (PyStr.contains "error TS") ls))%nat /\ Forall ts_issue_ok is.
Proof.
  induction ls as [|l rest IH]; intros is H; cbn [ts_lines] in H.
  - injection H as <-. simpl. split; [lia|constructor].
  - unfold bind in H.
    destruct (ts_line md5 l) as [o|e] eqn:E1; [|discriminate H].
    destruct (ts_lines md5 rest) as [is'|e'] eqn:E2; [|discriminate H].
    injection H as <-. destruct (IH is' eq_refl) as [Hlen Hok]. simpl.
    destruct o as [i|].
    + apply ts_line_shape in E1 as [Hc Hi]. rewrite Hc. simpl.
      split; [lia|constructor; assumption].
    + destruct (PyStr.contains "error TS" l); simpl; split; (lia || assumption).
Qed.

(** X14: [ingest_typescript] yields at most one issue per line containing
    [error TS], and every issue has source typescript, a rule id [TS<code>]
    whose code gives its severity ([map_ts_severity]: CRITICAL, MAJOR or
    MINOR) and its category ([categorize_ts_error]: types, async, imports
    or syntax). *)
Theorem typescript_issue_shape (md5 : string -> string) (ls : list string) (is : list Issue) :
  ingest_typescript md5 (TLines ls) = Ok is ->
  (length is <= length (filter (PyStr.contains "error TS") ls))%nat /\
  Forall (fun i => ts_issue_ok i /\
    In (severity i) ["CRITICAL"; "MAJOR"; "MINOR"] /\
    In (category i) ["types"; "async"; "imports"; "syntax"]) is.
Proof.
  intros H. apply ts_lines_shape in H as [Hlen Hok]. split; [exact Hlen|].
  eapply Forall_impl; [|exact Hok]. intros i Hi. split; [exact Hi|].
  destruct Hi as [_ [code [_ [Hs Hc]]]]. rewrite Hs, Hc.
  split; [apply map_ts_severity_range|apply categorize_ts_error_range].
Qed.

Definition sample_tsc_output : list string := [
  "src/app/page.tsx(4,10): error TS2322: Type 'string' is not assignable to type 'number'.";
  "src/lib/db.ts(1,1): error TS1005: ';' expected.";
  "Found 2 errors in 2 files."].

Lemma typescript_issue_shape_witness :
  exists is, ingest_typescript (fun s => s) (TLines sample_tsc_output) = Ok is /\
    map severity is = ["MAJOR"; "CRITICAL"] /\
    ((length is <= length (filter (PyStr.contains "error TS") sample_tsc_output))%nat /\
     Forall (fun i => ts_issue_ok i /\
       In (severity i) ["CRITICAL"; "MAJOR"; "MINOR"] /\
       In (category i) ["types"; "async"; "imports"; "syntax"]) is).
Proof.
  destruct (ingest_typescript (fun s => s) (TLines sample_tsc_output)) as [is|e] eqn:E;
    pose proof E as E'; vm_compute in E'; try discriminate E'.
  injection E' as Hi. exists is. split; [reflexivity|]. split; [subst is; reflexivity|].
  apply (typescript_issue_shape (fun s => s) sample_tsc_output is). exact E.
Defined.

(** ** Job queues *)

Lemma get_pattern_name_range (i : Issue) :
  In (get_pattern_name i)
     ["pattern-single-return"; "pattern-switch-cases"; "pattern-async-await";
      "pattern-import-fixes"; "pattern-type-assertions"; "pattern-general"].
Proof.
  unfold get_pattern_name, rule_patterns. cbn [first_pattern].
  destruct_contains; simpl; tauto.
Qed.

(** X17: a job made by [route_issue] is never saved under FAILED-ROUTING
    nor under DEEP-JOBS/performance-critical (created by
    [setup_directories] but never used); it goes to SKIP-JOBS exactly when
    the issue was already resolved; a SPEED job goes to the directory of
    its pattern name; and a job goes to DEEP-JOBS/security-sensitive
    exactly when it is DEEP and the issue's category is security. *)
Theorem routed_job_queue (lib : Library) (r : bool) (s : list string) (n : string) (i : Issue) :
  let j := route_issue lib r s n i in
  queue_dir j <> ["FAILED-ROUTING"] /\
  queue_dir j <> ["DEEP-JOBS"; "performance-critical"] /\
  (queue_dir j = ["SKIP-JOBS"] <-> r = true) /\
  (job_type j = "SPEED" -> queue_dir j = ["SPEED-JOBS"; get_pattern_name i]) /\
  (queue_dir j = ["DEEP-JOBS"; "security-sensitive"] <->
   job_type j = "DEEP" /\ category i = "security").
Proof.
  cbv zeta. unfold route_issue. destruct r.
  - unfold queue_dir. simpl. intuition discriminate.
  - cbv zeta. destruct (calculate_complexity lib i <=? 3).
    + pose proof (get_pattern_name_range i) as Hp.
      destruct Hp as [H|[H|[H|[H|[H|[H|[]]]]]]]; rewrite <- H;
        unfold queue_dir; simpl; intuition discriminate.
    + unfold queue_dir. simpl.
      destruct (String.eqb (category i) "security") eqn:Hs.
      * apply String.eqb_eq in Hs. intuition discriminate.
      * apply String.eqb_neq in Hs.
        destruct (8 <=? calculate_complexity lib i); intuition discriminate.
Qed.

Lemma string_length_app (s t : string) :
  String.length (s ++ t) = (String.length s + String.length t)%nat.
Proof. induction s as [|c s IH]; simpl; auto. Qed.

Lemma jobs_key_not_failed (s : string) : s ++ "_jobs" <> "failed_routing".
Proof.
  intros H. assert (Hl := f_equal String.length H).
  rewrite string_length_app in Hl. simpl in Hl.
  assert (Hg := append_correct2 s "_jobs" 4). rewrite H in Hg.
  replace (4 + String.length s)%nat with 13%nat in Hg by lia. simpl in Hg. discriminate.
Qed.

Lemma dict_incr_find (k k' : string) (d d' : list (string * Z)) :
  dict_incr k d = Ok d' -> k' <> k -> dict_find k' d' = dict_find k' d.
Proof.
  revert d'. induction d as [|[k0 n] rest IH]; intros d' H Hne; simpl in H; [discriminate|].
  destruct (String.eqb k k0) eqn:E.
  - injection H as <-. apply String.eqb_eq in E. subst k0. simpl.
    destruct (String.eqb k' k) eqn:E'; [apply String.eqb_eq in E'; contradiction|reflexivity].
  - unfold bind in H. destruct (dict_incr k rest) as [r|e] eqn:Er; [|discriminate].
    injection H as <-. simpl. destruct (String.eqb k' k0); [reflexivity|].
    apply IH; auto.
Qed.

(** X18: [save_job] never changes the [failed_routing] counter, whatever
    the job: the key it increments always ends in [_jobs].  A job routed to
    FAILED-ROUTING is therefore never counted there. *)
Theorem save_job_keeps_failed_routing (j : Job) (st st' : list (string * Z)) :
  snd (save_job j st) = Ok st' ->
  dict_find "failed_routing" st' = dict_find "failed_routing" st.
Proof.
  unfold save_job. simpl. intros H. apply (dict_incr_find _ _ _ _ H).
  intros E. apply (jobs_key_not_failed (PyStr.lower (job_type j))). symmetry. exact E.
Qed.

Definition sample_deep_job : Job :=
  route_issue default_patterns false [] "t"
    (mkIssue "cr-1" "coderabbit" "CRITICAL" "CR-critical" "src/app/api/pay.ts" 3 "m" "refactor").

Lemma save_job_keeps_failed_routing_witness :
  exists st', snd (save_job sample_deep_job orch_stats0) = Ok st' /\
    dict_find "deep_jobs" st' = Some 1 /\
    dict_find "failed_routing" st' = dict_find "failed_routing" orch_stats0.
Proof.
  destruct (snd (save_job sample_deep_job orch_stats0)) as [st'|e] eqn:E;
    pose proof E as E'; vm_compute in E'; try discriminate E'.
  injection E' as Hs. exists st'. split; [reflexivity|]. split; [subst st'; reflexivity|].
  apply (save_job_keeps_failed_routing sample_deep_job orch_stats0 st'). exact E.
Defined.

(** ** [find_similar_fixes] *)

(** A newline. *)
Definition nl : string := String "010"%char EmptyString.

Lemma mapM_raise {A B} (f : A -> result B) (l : list A) (x : A) (e : exc) :
  In x l -> f x = Raise e -> exists e', mapM f l = Raise e'.
Proof.
  induction l as [|a l IH]; simpl; [contradiction|].
  intros [<-|Hin] Hf.
  - rewrite Hf. simpl. eauto.
  - unfold bind. destruct (f a); [|eauto].
    destruct (IH Hin Hf) as [e' He]. rewrite He. eauto.
Qed.

Lemma string_of_list_ascii_nonempty (l : list ascii) :
  l <> [] -> string_of_list_ascii l <> EmptyString.
Proof. destruct l; simpl; [contradiction|discriminate]. Qed.

Lemma ws_tokens_nonempty (l cur : list ascii) :
  Forall (fun t => t <> EmptyString) (PyStr.ws_tokens l cur).
Proof.
  revert cur. induction l as [|c l IH]; intros cur; simpl.
  - destruct cur as [|d cur]; constructor; [|constructor].
    apply string_of_list_ascii_nonempty. simpl. intros H. symmetry in H.
    exact (app_cons_not_nil _ _ _ H).
  - destruct (PyStr.is_space c); [|apply IH].
    destruct cur as [|d cur]; [apply IH|]. constructor; [|apply IH].
    apply string_of_list_ascii_nonempty. simpl. intros H. symmetry in H.
    exact (app_cons_not_nil _ _ _ H).
Qed.

Lemma first_tokens_spec (ls : list string) (hs : list string) :
  mapM first_token ls = Ok hs ->
  hs = map (fun l => hd EmptyString (PyStr.split_ws l)) ls /\
  Forall (fun h => h <> EmptyString) hs.
Proof.
  intros H. apply mapM_Forall2 in H.
  induction H as [|l h ls hs Hh _ [IHeq IHne]]; [split; [reflexivity|constructor]|].
  unfold first_token in Hh. pose proof (ws_tokens_nonempty (list_ascii_of_string l) []) as Hne.
  cbn [map]. unfold PyStr.split_ws in *.
  destruct (PyStr.ws_tokens (list_ascii_of_string l) []) as [|t ts]; [discriminate|].
  injection Hh as <-. simpl. split; [rewrite IHeq; reflexivity|].
  constructor; [|exact IHne]. inversion Hne; assumption.
Qed.

(** X19: [find_similar_fixes] returns non-empty hashes only, and either
    nothing or, for a git run that succeeded, exactly the first word of
    every non-empty line of its stripped output, in order. *)
Theorem similar_fixes_first_tokens (g : option (Z * string)) :
  Forall (fun h => h <> EmptyString) (find_similar_fixes g) /\
  (find_similar_fixes g = [] \/
   exists out, g = Some (0, out) /\
     find_similar_fixes g =
       map (fun l => hd EmptyString (PyStr.split_ws l))
           (filter (fun l => negb (String.eqb l EmptyString)) (PyStr.split nl (PyStr.strip out)))).
Proof.
  destruct g as [[rc out]|]; [|split; [constructor|left; reflexivity]].
  unfold find_similar_fixes.
  destruct (Z.eqb_spec rc 0) as [->|Hrc]; [|split; [constructor|left; reflexivity]].
  destruct (mapM first_token _) as [hs|e] eqn:E; [|split; [constructor|left; reflexivity]].
  apply first_tokens_spec in E as [Heq Hne]. split; [exact Hne|].
  right. exists out. split; [reflexivity|exact Heq].
Qed.

(** X20: one line of the git output that is not empty but holds only
    whitespace makes [line.split()[0]] raise [IndexError], which the
    [except Exception] turns into no similar fix at all, even when the
    other lines name commits. *)
Theorem similar_fixes_blank_line (out l : string) :
  In l (PyStr.split nl (PyStr.strip out)) -> l <> EmptyString -> PyStr.split_ws l = [] ->
  find_similar_fixes (Some (0, out)) = [].
Proof.
  intros Hin Hne Hws. unfold find_similar_fixes. simpl (Z.eqb 0 0).
  destruct (mapM first_token _) as [hs|e] eqn:E; [|reflexivity]. exfalso.
  assert (Hin' : In l (filter (fun l => negb (String.eqb l EmptyString))
                              (PyStr.split nl (PyStr.strip out)))).
  { apply filter_In. split; [exact Hin|].
    destruct (String.eqb_spec l EmptyString); [contradiction|reflexivity]. }
  destruct (mapM_raise first_token _ l IndexError Hin') as [e' He].
  - unfold first_token. rewrite Hws. reflexivity.
  - change (String "010"%char EmptyString) with nl in E. rewrite He in E. discriminate.
Qed.

Definition sample_git_log : string :=
  "a1b2c3d fix(auth): await session refresh" ++ nl ++ " " ++ nl ++ "e4f5a6b fix: missing await".

Lemma similar_fixes_blank_line_witness :
  In " " (PyStr.split nl (PyStr.strip sample_git_log)) /\
  find_similar_fixes (Some (0, sample_git_log)) = [].
Proof.
  assert (Hin : In " " (PyStr.split nl (PyStr.strip sample_git_log)))
    by (apply In_str_mem; vm_compute; reflexivity).
  split; [exact Hin|].
  apply (similar_fixes_blank_line sample_git_log " " Hin); [discriminate|vm_compute; reflexivity].
Defined.

(** ** [--process-everything] *)

Lemma ingest_all_app (md5 : string -> string) (a b : list report) :
  ingest_all md5 (a +++ b) = (x <- ingest_all md5 a ;; y <- ingest_all md5 b ;; Ok (x +++ y)).
Proof.
  induction a as [|r a IH]; simpl.
  - destruct (ingest_all md5 b); reflexivity.
  - rewrite IH. destruct (ingest_report md5 r); simpl; [|reflexivity].
    destruct (ingest_all md5 a); simpl; [|reflexivity].
    destruct (ingest_all md5 b); simpl; [|reflexivity].
    rewrite app_assoc. reflexivity.
Qed.

(** X21: in [--process-everything], a malformed [*.json] file whose name
    sends it to the CodeRabbit reader ([coderabbit] or [performance] in
    its name, and no [sonarqube]) ends the whole run with
    [JSONDecodeError] once the files before it have been read, whatever
    files and TypeScript outputs follow. *)
Theorem incoming_coderabbit_malformed_aborts (md5 : string -> string)
    (pre post : list (string * json_file)) (name : string) (ts : list text_file)
    (is : list PyIssue) :
  incoming_kind_of name = Some InCodeRabbit ->
  ingest_all md5 (flat_map incoming_report pre) = Ok is ->
  process_everything_ingest md5 (pre +++ (name, Malformed) :: post) ts = Raise JSONDecodeError.
Proof.
  intros Hk Hpre. unfold process_everything_ingest.
  assert (Hr : incoming_report (name, Malformed) = [CodeRabbitReport Malformed])
    by (unfold incoming_report; simpl; rewrite Hk; reflexivity).
  rewrite flat_map_app. cbn [flat_map]. rewrite Hr.
  rewrite <- app_assoc, ingest_all_app, Hpre. reflexivity.
Qed.

Definition sample_sonar_scan : json := JObj [("issues", JArr [
  JObj [("rule", JStr "typescript:S1128"); ("component", JStr "src/lib/c.ts");
        ("line", JNum 2); ("severity", JStr "MINOR"); ("message", JStr "unused")]])].

Lemma incoming_coderabbit_malformed_aborts_witness :
  exists is,
    ingest_all (fun s => s) (flat_map incoming_report [("sonarqube-scan.json", Doc sample_sonar_scan)])
      = Ok is /\
    incoming_kind_of "performance-audit.json" = Some InCodeRabbit /\
    process_everything_ingest (fun s => s)
      ([("sonarqube-scan.json", Doc sample_sonar_scan)] +++
       ("performance-audit.json", Malformed) :: [("realistic-data.json", Doc sample_sonar_scan)])
      [TLines sample_tsc_output]
    = Raise JSONDecodeError.
Proof.
  destruct (ingest_all (fun s => s)
              (flat_map incoming_report [("sonarqube-scan.json", Doc sample_sonar_scan)]))
    as [is|e] eqn:E; pose proof E as E'; vm_compute in E'; try discriminate E'.
  exists is. split; [reflexivity|].
  assert (Hk : incoming_kind_of "performance-audit.json" = Some InCodeRabbit)
    by (vm_compute; reflexivity).
  split; [exact Hk|].
  exact (incoming_coderabbit_malformed_aborts (fun s => s)
           [("sonarqube-scan.json", Doc sample_sonar_scan)]
           [("realistic-data.json", Doc sample_sonar_scan)] "performance-audit.json"
           [TLines sample_tsc_output] is Hk E).
Defined.

(** X22: in [--process-everything], among the [*.json] files of
    [INCOMING/], a [._*] file, and a malformed or undecodable file whose
    name does not send it to the CodeRabbit reader, can be removed without
    changing the outcome of the ingestion.  (The [typescript*.txt] files
    are not concerned: an undecodable one raises.) *)
Theorem incoming_file_dropped (md5 : string -> string)
    (pre post : list (string * json_file)) (name : string) (f : json_file)
    (ts : list text_file) :
  (PyStr.starts_with "._" name = true \/
   ((f = Malformed \/ f = Undecodable) /\ incoming_kind_of name <> Some InCodeRabbit)) ->
  process_everything_ingest md5 (pre +++ (name, f) :: post) ts =
  process_everything_ingest md5 (pre +++ post) ts.
Proof.
  intros H.
  assert (Hskip : forall L, ingest_all md5 (incoming_report (name, f) +++ L) = ingest_all md5 L).
  { intros L. unfold incoming_report. cbn [fst snd].
    destruct H as [Hh|[Hf Hk]].
    - unfold incoming_kind_of. rewrite Hh. reflexivity.
    - destruct (incoming_kind_of name) as [[|]|]; [|congruence|reflexivity].
      apply ingest_all_skip_report. destruct Hf; subst f; reflexivity. }
  unfold process_everything_ingest. rewrite !flat_map_app. cbn [flat_map].
  rewrite <- !app_assoc.
  rewrite !(ingest_all_app md5 (flat_map incoming_report pre)).
  rewrite Hskip. reflexivity.
Qed.

Lemma incoming_file_dropped_witness :
  process_everything_ingest (fun s => s)
    ([("sonarqube-scan.json", Doc sample_sonar_scan)] +++
     ("synthetic-wedding-data.json", Malformed) :: [])
    [TLines sample_tsc_output] =
  process_everything_ingest (fun s => s)
    ([("sonarqube-scan.json", Doc sample_sonar_scan)] +++ [])
    [TLines sample_tsc_output].
Proof.
  apply incoming_file_dropped. right. split; [left; reflexivity|].
  vm_compute. discriminate.
Defined.

(** ** [generate_fix_instructions] *)

Lemma substring_length_le (n m : nat) (s : string) :
  (String.length (substring n m s) <= m)%nat.
Proof.
  revert n m. induction s as [|c s IH]; intros n m; destruct n, m; simpl; try lia; try apply IH.
  specialize (IH 0%nat m). lia.
Qed.

(** X23: a fix instruction is at most 111 characters long: the table's
    texts are short and any other message is cut to its first 100
    characters after [Fix issue: ]. *)
Theorem fix_instructions_bounded (rule msg : string) :
  (String.length (ParseSonar.generate_fix_instructions rule msg) <= 111)%nat.
Proof.
  unfold ParseSonar.generate_fix_instructions.
  destruct (find _ _) as [[k v]|] eqn:E.
  - apply find_some in E as [Hin _]. unfold ParseSonar.fix_instruction_table in Hin.
    repeat (destruct Hin as [Hin|Hin]; [injection Hin as <- <-; vm_compute; lia|]).
    destruct Hin.
  - rewrite string_length_app. unfold PyStr.take.
    pose proof (substring_length_le 0 100 msg). simpl String.length at 1. lia.
Qed.
